(** * Request orchestration of the Aceleraí Impact Simulator

    A shallow embedding of the two implementations of the orchestration
    layer of the repository:

    - [GeminiService.analyzeCreative], the SPA service of
      [services/geminiService.ts];
    - [AnalyzeRoute.POST], the Next.js API route handler (with its helpers
      [AnalyzeSchema], [buildParts] and [attemptGeneration]).

    Both talk to an external provider.  The provider is modelled as a
    deterministic script: a function giving, for the n-th invocation of one
    orchestrated call and the content parts sent, either a response or a
    thrown error.  Every run yields the chronological list of the observable
    events (provider invocations and timed waits) together with its
    completion.  Console logging is left out.

    JavaScript numbers are modelled by [Z]; this is exact for the integers
    below 2^53, which is the range the statements about delays are given
    for.  Strings are sequences of code units; the needles searched for are
    plain ASCII, so searching the UTF-8 form is the same as searching the
    UTF-16 form. *)

From Stdlib Require Import String Ascii List ZArith Lia Bool Arith DecimalString.
From Stdlib Require DecimalNat.
Import ListNotations.
Open Scope string_scope.
Set Warnings "-register-all".

(** ** JavaScript values and string helpers *)

Module Js.

(** [s.includes(sub)] *)
Fixpoint includes (s sub : string) : bool :=
  String.prefix sub s ||
  match s with
  | EmptyString => false
  | String _ rest => includes rest sub
  end.

(** Truthiness of a string value: the empty string is falsy. *)
Definition truthy (s : string) : bool :=
  match s with EmptyString => false | String _ _ => true end.

(** Truthiness of a possibly undefined string. *)
Definition truthy_opt (o : option string) : bool :=
  match o with Some s => truthy s | None => false end.

(** [a || b] on strings where [a] may be undefined. *)
Definition or_else (a : option string) (b : string) : string :=
  match a with
  | Some s => if truthy s then s else b
  | None => b
  end.

(** [s.split(',')]: the non-empty list of the segments between commas. *)
Fixpoint split_comma (s : string) : list string :=
  match s with
  | EmptyString => [EmptyString]
  | String c rest =>
      if Ascii.eqb c ","%char then EmptyString :: split_comma rest
      else match split_comma rest with
           | seg :: segs => String c seg :: segs
           | [] => [String c EmptyString]
           end
  end.

(** [\d] *)
Definition is_digit (c : ascii) : bool :=
  (48 <=? nat_of_ascii c)%nat && (nat_of_ascii c <=? 57)%nat.

(** The longest prefix of digits, and what follows it. *)
Fixpoint span_digits (s : string) : string * string :=
  match s with
  | EmptyString => (EmptyString, EmptyString)
  | String c rest =>
      if is_digit c
      then let (ds, tl) := span_digits rest in (String c ds, tl)
      else (EmptyString, s)
  end.

(** [parseInt(ds)] for a string of decimal digits, as an exact integer.  The
    source computes it as a double, which is this integer up to 2^53; the
    statements about delays read from an error carry a bound that keeps
    them in that range. *)
Fixpoint parseInt_from (acc : Z) (ds : string) : Z :=
  match ds with
  | EmptyString => acc
  | String c rest =>
      parseInt_from (10 * acc + (Z.of_nat (nat_of_ascii c) - 48)) rest
  end.

Definition parseInt (ds : string) : Z := parseInt_from 0 ds.

(** Template-literal rendering of a natural number. *)
Definition show_nat (n : nat) : string :=
  NilEmpty.string_of_uint (Nat.to_uint n).

(** JSON values as [JSON.parse] returns them.  An object is the list of its
    own properties with distinct keys.  Numbers are limited to the integer
    payloads; no property below looks inside a number. *)
Inductive Json : Type :=
| JNull
| JBool (b : bool)
| JNum (n : Z)
| JStr (s : string)
| JArr (items : list Json)
| JObj (fields : list (string * Json)).

(** The outcome of [JSON.parse(text)]: the value, or a thrown [SyntaxError]
    whose message is chosen by the JavaScript engine. *)
Inductive ParseResult : Type :=
| Parsed (v : Json)
| SyntaxError (msg : string).

(** The interface of [JSON.parse], a function of the runtime. *)
Definition Parser : Type := string -> ParseResult.

(** [obj[key] = v] on the property list: replace in place or append. *)
Fixpoint setField (key : string) (v : Json) (fields : list (string * Json))
  : list (string * Json) :=
  match fields with
  | [] => [(key, v)]
  | (k, w) :: rest =>
      if String.eqb k key then (k, v) :: rest
      else (k, w) :: setField key v rest
  end.

Fixpoint getField (key : string) (fields : list (string * Json))
  : option Json :=
  match fields with
  | [] => None
  | (k, w) :: rest => if String.eqb k key then Some w else getField key rest
  end.

Fixpoint indexed {A : Type} (i : nat) (l : list A) : list (string * A) :=
  match l with
  | [] => []
  | x :: rest => (show_nat i, x) :: indexed (S i) rest
  end.

(** The characters of a string, one by one.  For ASCII text these are the
    code units a spread enumerates. *)
Fixpoint units (s : string) : list Json :=
  match s with
  | EmptyString => []
  | String c rest => JStr (String c EmptyString) :: units rest
  end.

(** The own enumerable properties copied by an object spread [{...v}]. *)
Definition spread (v : Json) : list (string * Json) :=
  match v with
  | JObj fields => fields
  | JArr items => indexed 0 items
  | JStr s => indexed 0 (units s)
  | JNull | JBool _ | JNum _ => []
  end.

End Js.

Import Js.

(** ** The provider boundary *)

(** One entry of [error.details]. *)
Record Detail : Type := mkDetail {
  at_type : option string;      (* d['@type'] *)
  retryDelay : option string    (* d.retryDelay *)
}.

(** A thrown value, seen through the three properties the handlers read. *)
Record JsError : Type := mkError {
  status : option Z;
  message : option string;
  details : option (list Detail)
}.

(** [new Error(msg)] *)
Definition Error (msg : string) : JsError := mkError None (Some msg) None.

(** The [SyntaxError] thrown by [JSON.parse]. *)
Definition syntaxError (msg : string) : JsError := mkError None (Some msg) None.

(** [error.status === n] *)
Definition status_is (e : JsError) (n : Z) : bool :=
  match status e with Some s => Z.eqb s n | None => false end.

(** [error.message?.includes(sub)] as a condition. *)
Definition message_includes (e : JsError) (sub : string) : bool :=
  match message e with Some m => includes m sub | None => false end.

(** [`${error.message}`] *)
Definition message_text (e : JsError) : string :=
  match message e with Some m => m | None => "undefined" end.

Inductive Part : Type :=
| TextPart (text : string)
| InlineData (mimeType data : string).

(** What one call of [generateContent] does: it resolves with a response
    whose text may be undefined, or it rejects. *)
Inductive Reply : Type :=
| Responds (text : option string)
| Rejects (e : JsError).

(** The provider during one orchestrated call: the reply to the invocation
    number [n] (from 0) carrying the given parts. *)
Definition Provider : Type := nat -> list Part -> Reply.

(** The events of a run: a call of [generateContent] with the parts sent,
    and a timed wait with the delay given to [setTimeout]. *)
Inductive Event : Type :=
| Invoke (parts : list Part)
| Sleep (ms : Z).

Definition Trace : Type := list Event.

Inductive Completion (A : Type) : Type :=
| Returned (a : A)
| Thrown (e : JsError).
Arguments Returned {A} a.
Arguments Thrown {A} e.

Definition is_invoke (ev : Event) : bool :=
  match ev with Invoke _ => true | Sleep _ => false end.

(** The number of provider invocations of a run. *)
Definition invocations (tr : Trace) : nat := length (filter is_invoke tr).

(** The waits of a run, in order. *)
Fixpoint sleeps (tr : Trace) : list Z :=
  match tr with
  | [] => []
  | Sleep ms :: rest => ms :: sleeps rest
  | Invoke _ :: rest => sleeps rest
  end.

(** [image.split(',')[1] || image]: the payload of a data URL. *)
Definition base64Data (image : string) : string :=
  or_else (nth_error (split_comma image) 1) image.

(** [retryDelay.match(/^(\d+)(s|ms)$/)], then the duration in milliseconds
    computed from the two groups. *)
Definition matchRetryDelay (s : string) : option (string * string) :=
  let (ds, unit_) := span_digits s in
  if truthy ds && (String.eqb unit_ "s" || String.eqb unit_ "ms")
  then Some (ds, unit_) else None.

Definition delayOfMatch (m : string * string) : Z :=
  let (ds, unit_) := m in
  if String.eqb unit_ "s" then (parseInt ds * 1000)%Z else parseInt ds.

(** [d['@type']?.includes('RetryInfo') && d.retryDelay] *)
Definition isRetryInfo (d : Detail) : bool :=
  match at_type d with
  | Some t => includes t "RetryInfo" && truthy_opt (retryDelay d)
  | None => false
  end.

(** The delay requested by the provider, when [error.details] is an array
    whose first RetryInfo entry has a delay of the accepted form. *)
Definition requestedDelay (e : JsError) : option Z :=
  match details e with
  | Some ds =>
      match find isRetryInfo ds with
      | Some retryInfo =>
          match retryDelay retryInfo with
          | Some rd => option_map delayOfMatch (matchRetryDelay rd)
          | None => None
          end
      | None => None
      end
  | None => None
  end.

(** A non-empty string of decimal digits is what [(\d+)] captures. *)
Fixpoint all_digits (s : string) : bool :=
  match s with
  | EmptyString => true
  | String c rest => is_digit c && all_digits rest
  end.

(** An error whose first RetryInfo entry carries the guidance [rd]. *)
Definition carriesGuidance (e : JsError) (rd : string) : Prop :=
  exists ds retryInfo,
    details e = Some ds /\
    find isRetryInfo ds = Some retryInfo /\
    retryDelay retryInfo = Some rd.

(** An error without usable guidance: no details array, or no RetryInfo
    entry with a delay in it. *)
Definition noGuidance (e : JsError) : Prop :=
  match details e with
  | Some ds => find isRetryInfo ds = None
  | None => True
  end.

(** ** The SPA service: [analyzeCreative] of services/geminiService.ts *)

Module GeminiService.

Definition maxRetries : nat := 4.

Definition backoffDelays : list Z := [2000; 5000; 15000; 35000]%Z.

Definition parseErrorMessage : string :=
  "Resposta inválida do motor de IA (JSON Parse Error).".

Definition overloadedMessage : string :=
  "Serviço temporariamente sobrecarregado. Por favor, aguarde 1 minuto e tente novamente.".

(** The parts sent: the text always, then the image when one is given. *)
Definition contentsOf (input : string) (base64Image : option string)
  : list Part :=
  TextPart input ::
  match base64Image with
  | Some img =>
      if truthy img then [InlineData "image/png" (base64Data img)] else []
  | None => []
  end.

Definition isRetryable (error : JsError) : bool :=
  status_is error 429 ||
  status_is error 503 ||
  (truthy_opt (message error) &&
   (message_includes error "Resource has been exhausted" ||
    message_includes error "Quota exceeded")).

(** [backoffDelays[attempt] || 35000] *)
Definition backoffAt (attempt : nat) : Z :=
  match nth_error backoffDelays attempt with
  | Some d => if (d =? 0)%Z then 35000%Z else d
  | None => 35000%Z
  end.

(** The value of [delay] when [sleep(delay)] is called. *)
Definition delayFor (error : JsError) (attempt : nat) : Z :=
  let delay := match requestedDelay error with Some d => d | None => 0%Z end in
  if (delay =? 0)%Z then backoffAt attempt else delay.

(** The message of the error thrown from the else branch. *)
Definition userMessage (error : JsError) (attempt : nat) : string :=
  if status_is error 429 then overloadedMessage
  else "Falha na análise após " ++ show_nat (attempt + 1)
       ++ " tentativas. " ++ message_text error.

Section Service.

Variable JSON_parse : Parser.
Variable provider : Provider.

(** The body of the outer [try]: one invocation, [response.text || '{}'],
    then the inner try around [JSON.parse]. *)
Definition generate (n : nat) (contents : list Part) : Completion Json :=
  match provider n contents with
  | Rejects e => Thrown e
  | Responds text =>
      match JSON_parse (or_else text "{}") with
      | Parsed parsed => Returned parsed
      | SyntaxError _ => Thrown (Error parseErrorMessage)
      end
  end.

(** [while (attempt < maxRetries) { try {...} catch (error) {...} }].
    Each iteration invokes the provider once and [attempt] counts the
    iterations, so the invocation number is [attempt].  [None] is returned
    only when the fuel runs out. *)
Fixpoint retryLoop (fuel attempt : nat) (contents : list Part)
  : option (Trace * Completion Json) :=
  match fuel with
  | O => None
  | S fuel' =>
      if (attempt <? maxRetries)%nat then
        match generate attempt contents with
        | Returned parsed => Some ([Invoke contents], Returned parsed)
        | Thrown error =>
            if isRetryable error && (attempt <? maxRetries - 1)%nat then
              match retryLoop fuel' (attempt + 1) contents with
              | Some (tr, r) =>
                  Some (Invoke contents :: Sleep (delayFor error attempt) :: tr, r)
              | None => None
              end
            else
              Some ([Invoke contents], Thrown (Error (userMessage error attempt)))
        end
      else Some ([], Thrown (Error "Erro desconhecido na análise."))
  end.

Definition analyzeCreative (apiKey : option string) (input : string)
    (base64Image : option string) : option (Trace * Completion Json) :=
  if negb (truthy_opt apiKey)
  then Some ([], Thrown (Error "API Key configuration error"))
  else retryLoop (S maxRetries) 0 (contentsOf input base64Image).

End Service.

End GeminiService.

(** ** The API route: [POST] of the Next.js handler *)

Module AnalyzeRoute.

(** The request body as the client sends it, [JSON.stringify({text, image})]:
    an object whose two fields are strings when they are present.  Bodies of
    another shape (not JSON, or with a field that is not a string) are not
    represented. *)
Record Body : Type := mkBody {
  text : option string;
  image : option string
}.

Record Env : Type := mkEnv {
  GEMINI_API_KEY : option string;
  NODE_ENV : option string
}.

Inductive SafeParse : Type :=
| Success (data : Body)
| Failure (issues : list string).

Definition emptyInputMessage : string :=
  "Pelo menos texto ou imagem deve ser fornecido.".

(** [AnalyzeSchema.safeParse(body)]: the refinement [data.text || data.image]. *)
Definition AnalyzeSchema (body : Body) : SafeParse :=
  if truthy_opt (text body) || truthy_opt (image body)
  then Success body
  else Failure [emptyInputMessage].

(** The [details] of an error body: the validation issues (their messages),
    or in development the message of the error (its stack is left out). *)
Inductive ErrorDetails : Type :=
| NoDetails
| Issues (issues : list string)
| DevDetails (details : option string).

Inductive ResponseBody : Type :=
| ResultJson (result : Json)
| ErrorJson (error : string) (details : ErrorDetails).

Record HttpResponse : Type := mkResponse {
  http_status : Z;
  body : ResponseBody
}.

Definition warningMessage : string :=
  "A análise visual falhou (Erro/Segurança). Resultados baseados apenas em texto.".

Definition missingKeyMessage : string :=
  "Configuração de API Key ausente no servidor.".

Definition quotaMessage : string :=
  "Limite de requisições excedido. Por favor, tente novamente em alguns instantes.".

Definition internalMessage : string := "Erro interno no processamento de IA.".

Definition isQuotaError (error : JsError) : bool :=
  status_is error 429 ||
  message_includes error "429" ||
  message_includes error "RESOURCE_EXHAUSTED".

Definition isRetryable (error : JsError) : bool :=
  isQuotaError error ||
  status_is error 503 ||
  status_is error 500 ||
  message_includes error "timeout" ||
  message_includes error "network".

(** [Math.pow(2, retryCount) * 2000], replaced by the provider's delay when
    one is given in the accepted form. *)
Definition delayFor (error : JsError) (retryCount : nat) : Z :=
  match requestedDelay error with
  | Some d => d
  | None => (2 ^ Z.of_nat retryCount * 2000)%Z
  end.

(** [{...parsed, warning: warningMessage}] *)
Definition withWarning (parsed : Json) : Json :=
  JObj (setField "warning" (JStr warningMessage) (spread parsed)).

(** The response built by the outer [catch], for an error whose status
    [NextResponse.json] accepts (see [statusInRange]). *)
Definition errorResponse (env : Env) (error : JsError) : HttpResponse :=
  let isDev := match NODE_ENV env with
               | Some v => String.eqb v "development"
               | None => false
               end in
  mkResponse
    (match status error with
     | Some s => if (s =? 0)%Z then 500%Z else s
     | None => 500%Z
     end)
    (ErrorJson (if isQuotaError error then quotaMessage else internalMessage)
               (if isDev then DevDetails (message error) else NoDetails)).

Section Handler.

Variable JSON_parse : Parser.
Variable provider : Provider.

Section Request.

Variable text_ : option string.
Variable image_ : option string.

Definition buildParts (useImage : bool) : list Part :=
  match text_ with
  | Some t => if truthy t then [TextPart t] else []
  | None => []
  end ++
  match image_ with
  | Some img =>
      if truthy img && useImage
      then [InlineData "image/png" (base64Data img)] else []
  | None => []
  end.

(** [generateContent(parts)], [response.text()] and [JSON.parse] of it. *)
Definition generate (n : nat) (parts : list Part) : Completion Json :=
  match provider n parts with
  | Rejects e => Thrown e
  | Responds t =>
      match JSON_parse (match t with Some s => s | None => "undefined" end) with
      | Parsed parsed => Returned parsed
      | SyntaxError msg => Thrown (syntaxError msg)
      end
  end.

(** [attemptGeneration(retryCount)].  The call number [retryCount] is the
    invocation number [retryCount]; the fallback, which ends the call, is
    the next one.  [None] is returned only when the fuel runs out. *)
Fixpoint attemptGeneration (fuel retryCount : nat)
  : option (Trace * Completion Json) :=
  match fuel with
  | O => None
  | S fuel' =>
      let useImage := truthy_opt image_ in
      let parts := buildParts useImage in
      match generate retryCount parts with
      | Returned parsed => Some ([Invoke parts], Returned parsed)
      | Thrown error =>
          if (retryCount <? 3)%nat && isRetryable error then
            match attemptGeneration fuel' (retryCount + 1) with
            | Some (tr, r) =>
                Some (Invoke parts :: Sleep (delayFor error retryCount) :: tr, r)
            | None => None
            end
          else if useImage && truthy_opt text_ && (1 <=? retryCount)%nat then
            let textParts := buildParts false in
            match generate (retryCount + 1) textParts with
            | Returned parsed =>
                Some ([Invoke parts; Invoke textParts],
                      Returned (withWarning parsed))
            | Thrown fallbackError =>
                Some ([Invoke parts; Invoke textParts], Thrown fallbackError)
            end
          else Some ([Invoke parts], Thrown error)
      end
  end.

End Request.

(** The fuel given to [attemptGeneration]: [retryCount] goes from 0 to 3. *)
Definition attemptFuel : nat := 4.

Definition POST (env : Env) (request : Body) : option (Trace * HttpResponse) :=
  match AnalyzeSchema request with
  | Failure issues =>
      Some ([], mkResponse 400 (ErrorJson "Input inválido" (Issues issues)))
  | Success data =>
      if negb (truthy_opt (GEMINI_API_KEY env))
      then Some ([], mkResponse 500 (ErrorJson missingKeyMessage NoDetails))
      else
        match attemptGeneration (text data) (image data) attemptFuel 0 with
        | Some (tr, Returned finalResult) =>
            Some (tr, mkResponse 200 (ResultJson finalResult))
        | Some (tr, Thrown error) => Some (tr, errorResponse env error)
        | None => None
        end
  end.

End Handler.

End AnalyzeRoute.

(** ** A reader for JSON text

    [JSON.parse] belongs to the runtime, and the two handlers are modelled
    for any [Parser].  [JsonText.JSON_parse] is one such parser, used to run
    the handlers on concrete response texts.  It reads the JSON texts made
    of objects, arrays, strings without escapes, integers and the three
    literals, and rejects every other text; on the texts it accepts it
    returns the value [JSON.parse] returns.  Its [SyntaxError] message is a
    fixed one, engines word theirs differently. *)

Module JsonText.

Definition quote : ascii := ascii_of_nat 34.
Definition backslash : ascii := ascii_of_nat 92.

Definition is_ws (c : ascii) : bool :=
  let n := nat_of_ascii c in
  (n =? 32)%nat || (n =? 9)%nat || (n =? 10)%nat || (n =? 13)%nat.

Fixpoint skip_ws (s : string) : string :=
  match s with
  | EmptyString => EmptyString
  | String c rest => if is_ws c then skip_ws rest else s
  end.

Fixpoint strip_prefix (p s : string) : option string :=
  match p, s with
  | EmptyString, _ => Some s
  | String a p', String b s' =>
      if Ascii.eqb a b then strip_prefix p' s' else None
  | String _ _, EmptyString => None
  end.

(** The characters of a string up to its closing quote. *)
Fixpoint string_body (s : string) : option (string * string) :=
  match s with
  | EmptyString => None
  | String c rest =>
      if Ascii.eqb c quote then Some (EmptyString, rest)
      else if Ascii.eqb c backslash || (nat_of_ascii c <? 32)%nat then None
      else match string_body rest with
           | Some (body, tl) => Some (String c body, tl)
           | None => None
           end
  end.

(** An integer without leading zeros. *)
Definition digits_value (s : string) : option (Z * string) :=
  let (ds, tl) := span_digits s in
  match ds with
  | EmptyString => None
  | String d more =>
      if Ascii.eqb d "0" && truthy more then None
      else Some (parseInt ds, tl)
  end.

Definition number (s : string) : option (Z * string) :=
  match s with
  | String c rest =>
      if Ascii.eqb c "-"
      then match digits_value rest with
           | Some (n, tl) => Some ((- n)%Z, tl)
           | None => None
           end
      else digits_value s
  | EmptyString => None
  end.

Definition literal (s : string) : option (Json * string) :=
  match strip_prefix "null" s with
  | Some tl => Some (JNull, tl)
  | None =>
      match strip_prefix "true" s with
      | Some tl => Some (JBool true, tl)
      | None =>
          match strip_prefix "false" s with
          | Some tl => Some (JBool false, tl)
          | None => None
          end
      end
  end.

Fixpoint value (fuel : nat) (s : string) : option (Json * string) :=
  match fuel with
  | O => None
  | S fuel' =>
      match skip_ws s with
      | EmptyString => None
      | String c rest =>
          if Ascii.eqb c "{" then
            match skip_ws rest with
            | String d rest' =>
                if Ascii.eqb d "}" then Some (JObj [], rest')
                else members fuel' [] rest
            | EmptyString => None
            end
          else if Ascii.eqb c "[" then
            match skip_ws rest with
            | String d rest' =>
                if Ascii.eqb d "]" then Some (JArr [], rest')
                else elements fuel' [] rest
            | EmptyString => None
            end
          else if Ascii.eqb c quote then
            match string_body rest with
            | Some (body, tl) => Some (JStr body, tl)
            | None => None
            end
          else if Ascii.eqb c "-" || is_digit c then
            match number (String c rest) with
            | Some (n, tl) => Some (JNum n, tl)
            | None => None
            end
          else literal (String c rest)
      end
  end
with elements (fuel : nat) (acc : list Json) (s : string)
  : option (Json * string) :=
  match fuel with
  | O => None
  | S fuel' =>
      match value fuel' s with
      | Some (v, rest) =>
          match skip_ws rest with
          | String d rest' =>
              if Ascii.eqb d "," then elements fuel' (acc ++ [v]) rest'
              else if Ascii.eqb d "]" then Some (JArr (acc ++ [v]), rest')
              else None
          | EmptyString => None
          end
      | None => None
      end
  end
with members (fuel : nat) (acc : list (string * Json)) (s : string)
  : option (Json * string) :=
  match fuel with
  | O => None
  | S fuel' =>
      match skip_ws s with
      | String q rest =>
          if Ascii.eqb q quote then
            match string_body rest with
            | Some (key, rest1) =>
                match skip_ws rest1 with
                | String colon rest2 =>
                    if Ascii.eqb colon ":" then
                      match value fuel' rest2 with
                      | Some (v, rest3) =>
                          match skip_ws rest3 with
                          | String d rest4 =>
                              if Ascii.eqb d ","
                              then members fuel' (setField key v acc) rest4
                              else if Ascii.eqb d "}"
                              then Some (JObj (setField key v acc), rest4)
                              else None
                          | EmptyString => None
                          end
                      | None => None
                      end
                    else None
                | EmptyString => None
                end
            | None => None
            end
          else None
      | EmptyString => None
      end
  end.

Definition syntaxErrorMessage : string := "Unexpected token in JSON".

Definition JSON_parse : Parser := fun text =>
  match value (2 * String.length text + 2) text with
  | Some (v, rest) =>
      match skip_ws rest with
      | EmptyString => Parsed v
      | String _ _ => SyntaxError syntaxErrorMessage
      end
  | None => SyntaxError syntaxErrorMessage
  end.

End JsonText.

(** ** Vocabulary of the statements *)

(** The provider rejects every invocation with the status [code]. *)
Definition alwaysRejects (code : Z) (provider : Provider) : Prop :=
  forall n parts, exists e, provider n parts = Rejects e /\ status e = Some code.

(** The request passes [AnalyzeSchema]: a text or an image is given. *)
Definition hasInput (request : AnalyzeRoute.Body) : bool :=
  truthy_opt (AnalyzeRoute.text request) || truthy_opt (AnalyzeRoute.image request).

(** The request has both a text and an image. *)
Definition hasBoth (request : AnalyzeRoute.Body) : bool :=
  truthy_opt (AnalyzeRoute.text request) && truthy_opt (AnalyzeRoute.image request).


(** The delays a timer waits for as given: [setTimeout] takes a signed
    32-bit number of milliseconds. *)
Definition timerRange (ms : Z) : Prop := (0 <= ms <= 2147483647)%Z.




(** ** Sample data for concrete runs *)

Module Samples.

Definition quotaError : JsError :=
  mkError (Some 429%Z) (Some "Too Many Requests") None.

Definition unavailableError : JsError :=
  mkError (Some 503%Z) (Some "Service Unavailable") None.

Definition internalError : JsError :=
  mkError (Some 500%Z) (Some "Internal error") None.

Definition badRequestError : JsError :=
  mkError (Some 400%Z) (Some "Unable to process input image") None.


(** A 429 whose details carry the guidance [rd]. *)
Definition guidedError (rd : string) : JsError :=
  mkError (Some 429%Z) (Some "Too Many Requests")
    (Some [mkDetail (Some "type.googleapis.com/google.rpc.Help") None;
           mkDetail (Some "type.googleapis.com/google.rpc.RetryInfo") (Some rd)]).

(** A provider that rejects every invocation with [e]. *)
Definition always (e : JsError) : Provider := fun _ _ => Rejects e.

(** A provider that rejects with the listed errors, one per invocation, and
    then answers [text]. *)
Definition failingThen (errors : list JsError) (text : option string)
  : Provider :=
  fun n _ =>
    match nth_error errors n with
    | Some e => Rejects e
    | None => Responds text
    end.

Definition key : option string := Some "secret-key".


Definition prodEnv : AnalyzeRoute.Env :=
  AnalyzeRoute.mkEnv key (Some "production").

Definition noKeyEnv : AnalyzeRoute.Env :=
  AnalyzeRoute.mkEnv None (Some "production").

Definition adText : string := "Anuncio de Black Friday".
Definition adImage : string := "data:image/png;base64,iVBORw0KGgo=".

(** The parts sent for [adText] with [adImage]. *)
Definition imageParts : list Part :=
  [TextPart adText; InlineData "image/png" "iVBORw0KGgo="].

(** Unavailable once, then a refusal of the image, then an answer. *)
Definition imageRefused : Provider :=
  failingThen [unavailableError; badRequestError] (Some "{}").

Definition textAndImage : AnalyzeRoute.Body :=
  AnalyzeRoute.mkBody (Some adText) (Some adImage).

Definition textOnly : AnalyzeRoute.Body :=
  AnalyzeRoute.mkBody (Some adText) None.

Definition emptyBody : AnalyzeRoute.Body :=
  AnalyzeRoute.mkBody (Some "") None.

End Samples.

(** ** The client side

    The history kept by [AnalysisProvider], the request the home page sends
    through [analyzeWithAPI], and the diagnosis the command-line check of the
    SPA service prints for a thrown error. *)

Module AnalysisContext.

(** [[result, ...prev].slice(0, 15)], the new value given to [setHistory].
    The copy written to [localStorage] is left out. *)
Definition addToHistory {A : Type} (result : A) (prev : list A) : list A :=
  firstn 15 (result :: prev).

End AnalysisContext.

Module HomePage.

(** The state [handleAnalyze] reads. *)
Record State : Type := mkState {
  isAnalyzing : bool;
  inputText : string;
  selectedImage : option string;   (* string | undefined *)
  fileName : option string         (* string | null *)
}.

(** [inputText || (fileName ? `Arquivo: ${fileName}` : undefined)] *)
Definition textToAnalyze (st : State) : option string :=
  if truthy (inputText st) then Some (inputText st)
  else match fileName st with
       | Some f => if truthy f then Some ("Arquivo: " ++ f) else None
       | None => None
       end.

(** The first guard of [handleAnalyze]:
    [isAnalyzing || (!inputText && !selectedImage && !fileName)]. *)
Definition blocked (st : State) : bool :=
  isAnalyzing st ||
  (negb (truthy (inputText st)) && negb (truthy_opt (selectedImage st))
   && negb (truthy_opt (fileName st))).

(** The second guard, inside the [try]: [!textToAnalyze && !selectedImage]. *)
Definition nothingToSend (st : State) : bool :=
  negb (truthy_opt (textToAnalyze st)) && negb (truthy_opt (selectedImage st)).

(** The body [analyzeWithAPI(text, image)] posts: [JSON.stringify({text,
    image})], where an undefined image leaves no field. *)
Definition analyzeWithAPI_body (text : string) (image : option string)
  : AnalyzeRoute.Body :=
  AnalyzeRoute.mkBody (Some text) image.

(** What one call of [handleAnalyze] does before it awaits the answer. *)
Inductive Step : Type :=
| Ignored                              (* the first guard returns *)
| Skipped                              (* the second guard returns *)
| Posted (request : AnalyzeRoute.Body).

Definition handleAnalyze (st : State) : Step :=
  if blocked st then Ignored
  else if nothingToSend st then Skipped
  else Posted (analyzeWithAPI_body (or_else (textToAnalyze st) "")
                 (selectedImage st)).

End HomePage.

Module ServiceCheck.

Inductive Diagnosis : Type :=
| QuotaError      (* GEMINI API QUOTA ERROR (429) *)
| ApiKeyError     (* API KEY CONFIGURATION ERROR *)
| OtherError.     (* OTHER ERROR (not Gemini quota) *)

(** The branch taken on [error.message] by the script that calls
    [analyzeCreative] directly. *)
Definition diagnose (message : string) : Diagnosis :=
  if includes message "Quota" || includes message "429"
     || includes message "sobrecarregado"
  then QuotaError
  else if includes message "API Key" then ApiKeyError
  else OtherError.

End ServiceCheck.

(** ** The shape of a run *)

(** Attempts with the same parts, each followed by its wait. *)
Fixpoint retried (parts : list Part) (delays : list Z) : Trace :=
  match delays with
  | [] => []
  | d :: rest => Invoke parts :: Sleep d :: retried parts rest
  end.

(** [s] has no comma. *)
Fixpoint comma_free (s : string) : bool :=
  match s with
  | EmptyString => true
  | String c rest => negb (Ascii.eqb c ",") && comma_free rest
  end.

(** ** Facts about the helpers *)

Lemma invocations_cons_invoke (parts : list Part) (tr : Trace) :
  invocations (Invoke parts :: tr) = S (invocations tr).
Proof. reflexivity. Qed.

Lemma invocations_cons_sleep (ms : Z) (tr : Trace) :
  invocations (Sleep ms :: tr) = invocations tr.
Proof. reflexivity. Qed.

Lemma status_is_true (e : JsError) (n : Z) :
  status_is e n = true <-> status e = Some n.
Proof.
  unfold status_is. destruct (status e) as [s|]; split; intro H.
  - apply Z.eqb_eq in H. now subst.
  - injection H as ->. apply Z.eqb_refl.
  - discriminate.
  - discriminate.
Qed.

Lemma message_includes_true (e : JsError) (sub : string) :
  message_includes e sub = true <->
  exists m, message e = Some m /\ includes m sub = true.
Proof.
  unfold message_includes. destruct (message e) as [m|]; split.
  - intro H. now exists m.
  - intros [m' [[= <-] H]]. exact H.
  - discriminate.
  - intros [m' [[=] _]].
Qed.

Lemma includes_nonempty (m sub : string) :
  truthy sub = true -> includes m sub = true -> truthy m = true.
Proof.
  destruct m as [|c m]; [|reflexivity].
  destruct sub as [|d sub]; [discriminate|].
  intros _ H. simpl in H. discriminate.
Qed.

(** *** The retry-delay pattern *)

Lemma span_digits_append (ds unit_ : string) :
  all_digits ds = true ->
  fst (span_digits unit_) = EmptyString ->
  span_digits (ds ++ unit_) = (ds, snd (span_digits unit_)).
Proof.
  intros Hd Hu. induction ds as [|c ds IH]; simpl in *.
  - destruct (span_digits unit_) as [a b]. simpl in *. now subst.
  - apply andb_true_iff in Hd as [Hc Hd]. rewrite Hc, (IH Hd). reflexivity.
Qed.

Lemma matchRetryDelay_seconds (ds : string) :
  all_digits ds = true -> truthy ds = true ->
  matchRetryDelay (ds ++ "s") = Some (ds, "s").
Proof.
  intros Hd Ht. unfold matchRetryDelay.
  rewrite (span_digits_append ds "s" Hd eq_refl). simpl.
  now rewrite Ht.
Qed.

Lemma matchRetryDelay_millis (ds : string) :
  all_digits ds = true -> truthy ds = true ->
  matchRetryDelay (ds ++ "ms") = Some (ds, "ms").
Proof.
  intros Hd Ht. unfold matchRetryDelay.
  rewrite (span_digits_append ds "ms" Hd eq_refl). simpl.
  now rewrite Ht.
Qed.

Lemma requestedDelay_seconds (e : JsError) (ds : string) :
  all_digits ds = true -> truthy ds = true ->
  carriesGuidance e (ds ++ "s") ->
  requestedDelay e = Some (parseInt ds * 1000)%Z.
Proof.
  intros Hd Ht (l & ri & Hl & Hf & Hr). unfold requestedDelay.
  rewrite Hl, Hf, Hr, (matchRetryDelay_seconds ds Hd Ht). reflexivity.
Qed.

Lemma requestedDelay_millis (e : JsError) (ds : string) :
  all_digits ds = true -> truthy ds = true ->
  carriesGuidance e (ds ++ "ms") ->
  requestedDelay e = Some (parseInt ds).
Proof.
  intros Hd Ht (l & ri & Hl & Hf & Hr). unfold requestedDelay.
  rewrite Hl, Hf, Hr, (matchRetryDelay_millis ds Hd Ht). reflexivity.
Qed.

Lemma requestedDelay_none (e : JsError) :
  noGuidance e -> requestedDelay e = None.
Proof.
  unfold noGuidance, requestedDelay. destruct (details e) as [ds|]; [|reflexivity].
  now intros ->.
Qed.

(** ** The retry loop of the SPA service, one iteration at a time *)

Section SpaLoop.

Import GeminiService.

Variable JSON_parse : Parser.
Variable provider : Provider.
Variable contents : list Part.

Let run := retryLoop JSON_parse provider.
Let gen := generate JSON_parse provider.

Lemma spa_generate_rejects (n : nat) (e : JsError) :
  provider n contents = Rejects e -> gen n contents = Thrown e.
Proof. unfold gen, generate. now intros ->. Qed.

Lemma spa_retryLoop_returned (fuel attempt : nat) (v : Json) :
  (attempt < maxRetries)%nat ->
  gen attempt contents = Returned v ->
  run (S fuel) attempt contents = Some ([Invoke contents], Returned v).
Proof.
  intros Hlt Hg. unfold run, gen in *. cbn [retryLoop].
  apply Nat.ltb_lt in Hlt. now rewrite Hlt, Hg.
Qed.

Lemma spa_retryLoop_retry (fuel attempt : nat) (e : JsError) :
  (attempt < maxRetries - 1)%nat ->
  gen attempt contents = Thrown e ->
  isRetryable e = true ->
  run (S fuel) attempt contents =
  match run fuel (attempt + 1)%nat contents with
  | Some (tr, r) =>
      Some (Invoke contents :: Sleep (delayFor e attempt) :: tr, r)
  | None => None
  end.
Proof.
  intros Hlt Hg Hr. unfold run, gen in *. cbn [retryLoop].
  assert (H1 : (attempt <? maxRetries)%nat = true)
    by (apply Nat.ltb_lt; unfold maxRetries in *; lia).
  apply Nat.ltb_lt in Hlt. now rewrite H1, Hg, Hr, Hlt.
Qed.

Lemma spa_retryLoop_final (fuel attempt : nat) (e : JsError) :
  (attempt < maxRetries)%nat ->
  gen attempt contents = Thrown e ->
  isRetryable e = false \/ attempt = (maxRetries - 1)%nat ->
  run (S fuel) attempt contents =
  Some ([Invoke contents], Thrown (Error (userMessage e attempt))).
Proof.
  intros Hlt Hg Hstop. unfold run, gen in *. cbn [retryLoop].
  apply Nat.ltb_lt in Hlt. rewrite Hlt, Hg.
  replace (isRetryable e && (attempt <? maxRetries - 1)%nat) with false;
    [reflexivity|].
  destruct Hstop as [-> | ->]; [reflexivity|].
  rewrite Nat.ltb_irrefl. now rewrite andb_false_r.
Qed.

(** The loop always ends: fuel above the number of attempts left is enough. *)
Lemma spa_retryLoop_total (fuel : nat) :
  forall attempt, (maxRetries - attempt < fuel)%nat ->
  exists r, run fuel attempt contents = Some r.
Proof.
  induction fuel as [|fuel IH]; intros attempt Hf; [lia|].
  assert (Hmax : maxRetries = 4%nat) by reflexivity.
  destruct (Nat.ltb_spec attempt maxRetries) as [Hlt|Hge].
  - destruct (gen attempt contents) as [v|e] eqn:Hg.
    + eexists. eapply spa_retryLoop_returned; eauto.
    + destruct (isRetryable e) eqn:Hr.
      * destruct (Nat.ltb_spec attempt (maxRetries - 1)) as [Hlt1|Hge1].
        -- rewrite (spa_retryLoop_retry fuel attempt e Hlt1 Hg Hr).
           destruct (IH (attempt + 1)%nat) as [[tr r] ->]; [lia|].
           eexists. reflexivity.
        -- eexists. apply (spa_retryLoop_final fuel attempt e); auto.
           right. lia.
      * eexists. apply (spa_retryLoop_final fuel attempt e); auto.
  - unfold run. cbn [retryLoop].
    apply Nat.ltb_ge in Hge. rewrite Hge. eexists. reflexivity.
Qed.

(** A provider that rejects every invocation with status 429 is invoked
    once per attempt left, and the last rejection ends the call. *)
Lemma spa_retryLoop_always_429 (k : nat) :
  (forall n, exists e, provider n contents = Rejects e /\ status e = Some 429%Z) ->
  forall fuel attempt,
  (attempt + S k = maxRetries)%nat -> (k < fuel)%nat ->
  exists tr,
    run fuel attempt contents = Some (tr, Thrown (Error overloadedMessage)) /\
    invocations tr = S k /\ length (sleeps tr) = k.
Proof.
  intro Hall. assert (Hmax : maxRetries = 4%nat) by reflexivity.
  induction k as [|k IH]; intros fuel attempt Ha Hf.
  - destruct fuel as [|fuel]; [lia|].
    destruct (Hall attempt) as (e & He & Hs).
    exists [Invoke contents]. split; [|split; reflexivity].
    rewrite (spa_retryLoop_final fuel attempt e).
    + unfold userMessage. apply status_is_true in Hs. now rewrite Hs.
    + lia.
    + now apply spa_generate_rejects.
    + right. lia.
  - destruct fuel as [|fuel]; [lia|].
    destruct (Hall attempt) as (e & He & Hs).
    destruct (IH fuel (attempt + 1)%nat) as (tr & Htr & Hi & Hsl); [lia|lia|].
    exists (Invoke contents :: Sleep (delayFor e attempt) :: tr).
    rewrite (spa_retryLoop_retry fuel attempt e), Htr.
    + split; [reflexivity|]. split.
      * rewrite invocations_cons_invoke, invocations_cons_sleep. now rewrite Hi.
      * simpl. now rewrite Hsl.
    + lia.
    + now apply spa_generate_rejects.
    + unfold isRetryable. apply status_is_true in Hs. now rewrite Hs.
Qed.

End SpaLoop.

(** ** The attempts of the API route, one call at a time *)

Section RouteLoop.

Import AnalyzeRoute.

Variable JSON_parse : Parser.
Variable provider : Provider.
Variable text_ image_ : option string.

Let run := attemptGeneration JSON_parse provider text_ image_.
Let gen := generate JSON_parse provider.
Let parts := buildParts text_ image_ (truthy_opt image_).
Let textParts := buildParts text_ image_ false.

Lemma route_generate_rejects (n : nat) (ps : list Part) (e : JsError) :
  provider n ps = Rejects e -> gen n ps = Thrown e.
Proof. unfold gen, generate. now intros ->. Qed.

Lemma route_returned (fuel retryCount : nat) (v : Json) :
  gen retryCount parts = Returned v ->
  run (S fuel) retryCount = Some ([Invoke parts], Returned v).
Proof.
  intros Hg. unfold run, gen, parts in *. cbn [attemptGeneration].
  now rewrite Hg.
Qed.

Lemma route_retry (fuel retryCount : nat) (e : JsError) :
  gen retryCount parts = Thrown e ->
  (retryCount < 3)%nat ->
  isRetryable e = true ->
  run (S fuel) retryCount =
  match run fuel (retryCount + 1)%nat with
  | Some (tr, r) =>
      Some (Invoke parts :: Sleep (delayFor e retryCount) :: tr, r)
  | None => None
  end.
Proof.
  intros Hg Hlt Hr. unfold run, gen, parts in *. cbn [attemptGeneration].
  apply Nat.ltb_lt in Hlt. now rewrite Hg, Hlt, Hr.
Qed.

Lemma route_not_retried (retryCount : nat) (e : JsError) :
  (3 <= retryCount)%nat \/ isRetryable e = false ->
  (retryCount <? 3)%nat && isRetryable e = false.
Proof.
  intros [H | ->]; [|apply andb_false_r].
  apply Nat.ltb_ge in H. now rewrite H.
Qed.

Lemma route_fallback_returned (fuel retryCount : nat) (e : JsError) (v : Json) :
  gen retryCount parts = Thrown e ->
  (3 <= retryCount)%nat \/ isRetryable e = false ->
  truthy_opt image_ = true -> truthy_opt text_ = true ->
  (1 <= retryCount)%nat ->
  gen (retryCount + 1)%nat textParts = Returned v ->
  run (S fuel) retryCount =
  Some ([Invoke parts; Invoke textParts], Returned (withWarning v)).
Proof.
  intros Hg Hstop Hi Ht Hrc Hf. unfold run, gen, parts, textParts in *.
  cbn [attemptGeneration].
  apply Nat.leb_le in Hrc.
  now rewrite Hg, (route_not_retried _ _ Hstop), Hi, Ht, Hrc, Hf.
Qed.

Lemma route_fallback_thrown (fuel retryCount : nat) (e fallbackError : JsError) :
  gen retryCount parts = Thrown e ->
  (3 <= retryCount)%nat \/ isRetryable e = false ->
  truthy_opt image_ = true -> truthy_opt text_ = true ->
  (1 <= retryCount)%nat ->
  gen (retryCount + 1)%nat textParts = Thrown fallbackError ->
  run (S fuel) retryCount =
  Some ([Invoke parts; Invoke textParts], Thrown fallbackError).
Proof.
  intros Hg Hstop Hi Ht Hrc Hf. unfold run, gen, parts, textParts in *.
  cbn [attemptGeneration].
  apply Nat.leb_le in Hrc.
  now rewrite Hg, (route_not_retried _ _ Hstop), Hi, Ht, Hrc, Hf.
Qed.

Lemma route_thrown (fuel retryCount : nat) (e : JsError) :
  gen retryCount parts = Thrown e ->
  (3 <= retryCount)%nat \/ isRetryable e = false ->
  truthy_opt image_ && truthy_opt text_ && (1 <=? retryCount)%nat = false ->
  run (S fuel) retryCount = Some ([Invoke parts], Thrown e).
Proof.
  intros Hg Hstop Hno. unfold run, gen, parts in *. cbn [attemptGeneration].
  now rewrite Hg, (route_not_retried _ _ Hstop), Hno.
Qed.

(** The recursion always ends: fuel above the number of retries left is
    enough. *)
Lemma route_total (fuel : nat) :
  forall retryCount, (3 - retryCount < fuel)%nat ->
  exists r, run fuel retryCount = Some r.
Proof.
  induction fuel as [|fuel IH]; intros rc Hf; [lia|].
  destruct (gen rc parts) as [v|e] eqn:Hg.
  - eexists. eapply route_returned; eauto.
  - destruct ((rc <? 3)%nat && isRetryable e) eqn:Hretry.
    + apply andb_true_iff in Hretry as [Hlt Hr]. apply Nat.ltb_lt in Hlt.
      rewrite (route_retry fuel rc e Hg Hlt Hr).
      destruct (IH (rc + 1)%nat) as [[tr r] ->]; [lia|]. eexists. reflexivity.
    + assert (Hstop : (3 <= rc)%nat \/ isRetryable e = false).
      { apply andb_false_iff in Hretry as [H|H]; [left|now right].
        now apply Nat.ltb_ge in H. }
      destruct (truthy_opt image_ && truthy_opt text_ && (1 <=? rc)%nat) eqn:Hfb.
      * apply andb_true_iff in Hfb as [Hfb Hrc].
        apply andb_true_iff in Hfb as [Hi Ht]. apply Nat.leb_le in Hrc.
        destruct (gen (rc + 1)%nat textParts) as [v|fe] eqn:Hf2.
        -- eexists. eapply route_fallback_returned; eauto.
        -- eexists. eapply route_fallback_thrown; eauto.
      * eexists. eapply route_thrown; eauto.
Qed.

(** A provider that rejects every invocation with status 429 is invoked
    once per call left and, when the request has a text and an image, once
    more for the fallback. *)
Lemma route_always_429 (k : nat) :
  (forall n ps, exists e, provider n ps = Rejects e /\ status e = Some 429%Z) ->
  forall fuel retryCount,
  (retryCount + k = 3)%nat -> (k < fuel)%nat ->
  exists tr e,
    run fuel retryCount = Some (tr, Thrown e) /\
    status e = Some 429%Z /\
    invocations tr =
    (S k + if truthy_opt text_ && truthy_opt image_ then 1 else 0)%nat.
Proof.
  intro Hall. induction k as [|k IH]; intros fuel rc Ha Hf.
  - destruct fuel as [|fuel]; [lia|].
    destruct (Hall rc parts) as (e & He & Hs).
    apply route_generate_rejects in He.
    destruct (truthy_opt text_ && truthy_opt image_) eqn:Hboth.
    + apply andb_true_iff in Hboth as [Ht Hi].
      destruct (Hall (rc + 1)%nat textParts) as (fe & Hfe & Hfs).
      apply route_generate_rejects in Hfe.
      exists [Invoke parts; Invoke textParts], fe. split; [|now split].
      apply (route_fallback_thrown fuel rc e fe); auto; lia.
    + exists [Invoke parts], e. split; [|now split].
      apply route_thrown; auto; [left; lia|].
      now rewrite (andb_comm (truthy_opt image_)), Hboth.
  - destruct fuel as [|fuel]; [lia|].
    destruct (Hall rc parts) as (e & He & Hs).
    apply route_generate_rejects in He.
    destruct (IH fuel (rc + 1)%nat) as (tr & fe & Htr & Hfs & Hn); [lia|lia|].
    exists (Invoke parts :: Sleep (delayFor e rc) :: tr), fe.
    rewrite (route_retry fuel rc e He), Htr.
    + split; [reflexivity|]. split; [exact Hfs|].
      rewrite invocations_cons_invoke, invocations_cons_sleep. now rewrite Hn.
    + lia.
    + unfold isRetryable, isQuotaError. apply status_is_true in Hs.
      now rewrite Hs.
Qed.

End RouteLoop.

(** ** The handler of the API route around its attempts *)

Lemma POST_valid (JSON_parse : Parser) (provider : Provider)
    (env : AnalyzeRoute.Env) (request : AnalyzeRoute.Body) :
  hasInput request = true ->
  truthy_opt (AnalyzeRoute.GEMINI_API_KEY env) = true ->
  AnalyzeRoute.POST JSON_parse provider env request =
  match AnalyzeRoute.attemptGeneration JSON_parse provider
          (AnalyzeRoute.text request) (AnalyzeRoute.image request)
          AnalyzeRoute.attemptFuel 0 with
  | Some (tr, Returned finalResult) =>
      Some (tr, AnalyzeRoute.mkResponse 200 (AnalyzeRoute.ResultJson finalResult))
  | Some (tr, Thrown error) => Some (tr, AnalyzeRoute.errorResponse env error)
  | None => None
  end.
Proof.
  unfold hasInput, AnalyzeRoute.POST, AnalyzeRoute.AnalyzeSchema.
  intros -> ->. reflexivity.
Qed.

(** Both entry points always complete. *)
Lemma analyzeCreative_total (JSON_parse : Parser) (provider : Provider)
    (apiKey : option string) (input : string) (base64Image : option string) :
  exists r,
    GeminiService.analyzeCreative JSON_parse provider apiKey input base64Image
    = Some r.
Proof.
  unfold GeminiService.analyzeCreative.
  destruct (negb (truthy_opt apiKey)); [eexists; reflexivity|].
  apply spa_retryLoop_total. unfold GeminiService.maxRetries. lia.
Qed.

Lemma POST_total (JSON_parse : Parser) (provider : Provider)
    (env : AnalyzeRoute.Env) (request : AnalyzeRoute.Body) :
  exists r, AnalyzeRoute.POST JSON_parse provider env request = Some r.
Proof.
  unfold AnalyzeRoute.POST.
  destruct (AnalyzeRoute.AnalyzeSchema request) as [data|issues];
    [|eexists; reflexivity].
  destruct (negb _); [eexists; reflexivity|].
  destruct (route_total JSON_parse provider (AnalyzeRoute.text data)
              (AnalyzeRoute.image data) AnalyzeRoute.attemptFuel 0)
    as [[tr [v|e]] ->]; [unfold AnalyzeRoute.attemptFuel; lia| |];
    eexists; reflexivity.
Qed.

(** ** The claims *)

(** C1, as the code has it.  Against a provider that rejects every
    invocation with status 429, the SPA service invokes it exactly
    [maxRetries] = 4 times and throws the "temporarily overloaded, try
    again" error; the API route invokes it 4 times with the request's
    parts, once more with the text alone when the request has both a text
    and an image, and answers 429 with the "try again in a few moments"
    message. *)
Theorem C1_retry_bound (JSON_parse : Parser) (provider : Provider)
    (apiKey : option string) (input : string) (base64Image : option string)
    (env : AnalyzeRoute.Env) (request : AnalyzeRoute.Body) :
  alwaysRejects 429 provider ->
  truthy_opt apiKey = true ->
  truthy_opt (AnalyzeRoute.GEMINI_API_KEY env) = true ->
  hasInput request = true ->
  (exists tr,
     GeminiService.analyzeCreative JSON_parse provider apiKey input base64Image
     = Some (tr, Thrown (Error GeminiService.overloadedMessage)) /\
     invocations tr = GeminiService.maxRetries) /\
  (exists tr details,
     AnalyzeRoute.POST JSON_parse provider env request
     = Some (tr, AnalyzeRoute.mkResponse 429
                   (AnalyzeRoute.ErrorJson AnalyzeRoute.quotaMessage details)) /\
     invocations tr = (4 + if hasBoth request then 1 else 0)%nat).
Proof.
  intros Hall Hkey Hkey' Hin. split.
  - unfold GeminiService.analyzeCreative. rewrite Hkey. cbn [negb].
    destruct (spa_retryLoop_always_429 JSON_parse provider
                (GeminiService.contentsOf input base64Image) 3
                (fun n => Hall n _) (S GeminiService.maxRetries) 0)
      as (tr & Htr & Hn & _); [reflexivity|unfold GeminiService.maxRetries; lia|].
    exists tr. now split.
  - rewrite (POST_valid _ _ _ _ Hin Hkey').
    destruct (route_always_429 JSON_parse provider (AnalyzeRoute.text request)
                (AnalyzeRoute.image request) 3 Hall AnalyzeRoute.attemptFuel 0)
      as (tr & e & Htr & Hs & Hn);
      [reflexivity|unfold AnalyzeRoute.attemptFuel; lia|].
    rewrite Htr. exists tr. unfold AnalyzeRoute.errorResponse.
    rewrite Hs. unfold AnalyzeRoute.isQuotaError.
    rewrite (proj2 (status_is_true e 429) Hs). cbn [orb Z.eqb].
    eexists. split; [reflexivity|exact Hn].
Qed.

Lemma C1_retry_bound_witness :
  alwaysRejects 429 (Samples.always Samples.quotaError) /\
  (exists tr,
     GeminiService.analyzeCreative JsonText.JSON_parse
       (Samples.always Samples.quotaError) Samples.key Samples.adText
       (Some Samples.adImage)
     = Some (tr, Thrown (Error GeminiService.overloadedMessage)) /\
     invocations tr = 4%nat) /\
  (exists tr details,
     AnalyzeRoute.POST JsonText.JSON_parse (Samples.always Samples.quotaError)
       Samples.prodEnv Samples.textOnly
     = Some (tr, AnalyzeRoute.mkResponse 429
                   (AnalyzeRoute.ErrorJson AnalyzeRoute.quotaMessage details)) /\
     invocations tr = 4%nat).
Proof.
  assert (H : alwaysRejects 429 (Samples.always Samples.quotaError)).
  { intros n ps. exists Samples.quotaError. split; reflexivity. }
  split; [exact H|].
  exact (C1_retry_bound JsonText.JSON_parse (Samples.always Samples.quotaError)
           Samples.key Samples.adText (Some Samples.adImage)
           Samples.prodEnv Samples.textOnly H eq_refl eq_refl eq_refl).
Defined.

(** C1 as stated fails on the API route: for a request with a text and an
    image the provider is invoked five times, not four. *)
Lemma C1_route_counterexample :
  exists tr response,
    AnalyzeRoute.POST JsonText.JSON_parse (Samples.always Samples.quotaError)
      Samples.prodEnv Samples.textAndImage = Some (tr, response) /\
    invocations tr = 5%nat /\
    invocations tr <> GeminiService.maxRetries.
Proof.
  eexists. eexists. split; [vm_compute; reflexivity|].
  split; [reflexivity|discriminate].
Qed.

(** *** Retryability *)

Lemma spa_isRetryable_spec (e : JsError) :
  GeminiService.isRetryable e = true <->
  status e = Some 429%Z \/ status e = Some 503%Z \/
  exists m, message e = Some m /\
    (includes m "Resource has been exhausted" = true \/
     includes m "Quota exceeded" = true).
Proof.
  unfold GeminiService.isRetryable.
  rewrite !orb_true_iff, andb_true_iff, orb_true_iff, !status_is_true,
    !message_includes_true.
  split.
  - intros [[H|H]|[_ [H|H]]]; auto; destruct H as (m & Hm & H); eauto 6.
  - intros [H|[H|(m & Hm & H)]]; [now left; left|now left; right|].
    right. split.
    + rewrite Hm. simpl.
      destruct H as [H|H]; eapply includes_nonempty; eauto; reflexivity.
    + destruct H as [H|H]; [left|right]; eauto.
Qed.

Lemma route_isRetryable_spec (e : JsError) :
  AnalyzeRoute.isRetryable e = true <->
  status e = Some 429%Z \/ status e = Some 503%Z \/ status e = Some 500%Z \/
  exists m, message e = Some m /\
    (includes m "429" = true \/ includes m "RESOURCE_EXHAUSTED" = true \/
     includes m "timeout" = true \/ includes m "network" = true).
Proof.
  unfold AnalyzeRoute.isRetryable, AnalyzeRoute.isQuotaError.
  rewrite !orb_true_iff, !status_is_true, !message_includes_true.
  split.
  - intros [[[[[[H|H]|H]|H]|H]|H]|H]; auto;
      destruct H as (m & Hm & H); right; right; right; exists m; tauto.
  - intros [H|[H|[H|(m & Hm & H)]]]; [tauto|tauto|tauto|].
    assert (Hm' : forall sub, includes m sub = true ->
                  exists m', message e = Some m' /\ includes m' sub = true)
      by (intros sub Hs; now exists m).
    destruct H as [H|[H|[H|H]]]; apply Hm' in H; tauto.
Qed.

(** C2, as the code has it.  The SPA service retries exactly the errors
    whose status is 429 or 503 or whose message contains "Resource has been
    exhausted" or "Quota exceeded"; the API route retries exactly the errors
    whose status is 429, 503 or 500 or whose message contains "429",
    "RESOURCE_EXHAUSTED", "timeout" or "network".  Any other error is never
    retried: the SPA call ends at once with that attempt, and the route's
    call ends with no wait, either with that error or, from the second
    attempt on for a request with a text and an image, with the single
    text-only fallback. *)
Theorem C2_retryability (JSON_parse : Parser) (provider : Provider)
    (contents : list Part) (text_ image_ : option string) (e : JsError)
    (fuel n : nat) :
  (GeminiService.isRetryable e = true <->
   status e = Some 429%Z \/ status e = Some 503%Z \/
   exists m, message e = Some m /\
     (includes m "Resource has been exhausted" = true \/
      includes m "Quota exceeded" = true)) /\
  (AnalyzeRoute.isRetryable e = true <->
   status e = Some 429%Z \/ status e = Some 503%Z \/ status e = Some 500%Z \/
   exists m, message e = Some m /\
     (includes m "429" = true \/ includes m "RESOURCE_EXHAUSTED" = true \/
      includes m "timeout" = true \/ includes m "network" = true)) /\
  ((n < GeminiService.maxRetries)%nat ->
   GeminiService.generate JSON_parse provider n contents = Thrown e ->
   GeminiService.isRetryable e = false ->
   GeminiService.retryLoop JSON_parse provider (S fuel) n contents =
   Some ([Invoke contents], Thrown (Error (GeminiService.userMessage e n)))) /\
  (let parts := AnalyzeRoute.buildParts text_ image_ (truthy_opt image_) in
   let textParts := AnalyzeRoute.buildParts text_ image_ false in
   AnalyzeRoute.generate JSON_parse provider n parts = Thrown e ->
   AnalyzeRoute.isRetryable e = false ->
   AnalyzeRoute.attemptGeneration JSON_parse provider text_ image_ (S fuel) n =
   if truthy_opt image_ && truthy_opt text_ && (1 <=? n)%nat
   then Some ([Invoke parts; Invoke textParts],
              match AnalyzeRoute.generate JSON_parse provider (n + 1) textParts with
              | Returned v => Returned (AnalyzeRoute.withWarning v)
              | Thrown fallbackError => Thrown fallbackError
              end)
   else Some ([Invoke parts], Thrown e)).
Proof.
  split; [apply spa_isRetryable_spec|].
  split; [apply route_isRetryable_spec|].
  split.
  - intros Hlt Hg Hr. apply spa_retryLoop_final; auto.
  - intros parts textParts Hg Hr.
    destruct (truthy_opt image_ && truthy_opt text_ && (1 <=? n)%nat) eqn:Hfb.
    + apply andb_true_iff in Hfb as [Hfb Hn].
      apply andb_true_iff in Hfb as [Hi Ht]. apply Nat.leb_le in Hn.
      destruct (AnalyzeRoute.generate JSON_parse provider (n + 1) textParts)
        as [v|fe] eqn:Hf.
      * eapply route_fallback_returned; eauto.
      * eapply route_fallback_thrown; eauto.
    + apply route_thrown; auto.
Qed.

Lemma C2_retryability_witness :
  GeminiService.isRetryable Samples.unavailableError = true /\
  AnalyzeRoute.isRetryable Samples.internalError = true /\
  GeminiService.retryLoop JsonText.JSON_parse
    (Samples.always Samples.badRequestError) 1 0 [TextPart Samples.adText] =
  Some ([Invoke [TextPart Samples.adText]],
        Thrown (Error (GeminiService.userMessage Samples.badRequestError 0))) /\
  AnalyzeRoute.attemptGeneration JsonText.JSON_parse
    (Samples.always Samples.badRequestError)
    (Some Samples.adText) (Some Samples.adImage) 1 0 =
  Some ([Invoke [TextPart Samples.adText;
                 InlineData "image/png" "iVBORw0KGgo="]],
        Thrown Samples.badRequestError).
Proof.
  split.
  { apply (C2_retryability JsonText.JSON_parse
             (Samples.always Samples.unavailableError) [] None None
             Samples.unavailableError 0 0).
    right. left. reflexivity. }
  split.
  { apply (C2_retryability JsonText.JSON_parse
             (Samples.always Samples.internalError) [] None None
             Samples.internalError 0 0).
    right. right. left. reflexivity. }
  destruct (C2_retryability JsonText.JSON_parse
              (Samples.always Samples.badRequestError)
              [TextPart Samples.adText] (Some Samples.adText)
              (Some Samples.adImage) Samples.badRequestError 0 0)
    as (_ & _ & Hspa & Hroute).
  split.
  - apply Hspa; [unfold GeminiService.maxRetries; lia|reflexivity|reflexivity].
  - apply Hroute; reflexivity.
Defined.

(** C2 as stated fails on the API route: an error of status 500 is retried
    after a wait. *)
Lemma C2_route_counterexample :
  status Samples.internalError = Some 500%Z /\
  AnalyzeRoute.isRetryable Samples.internalError = true /\
  AnalyzeRoute.POST JsonText.JSON_parse
    (Samples.failingThen [Samples.internalError] (Some "{}"))
    Samples.prodEnv Samples.textOnly =
  Some ([Invoke [TextPart Samples.adText]; Sleep 2000;
         Invoke [TextPart Samples.adText]],
        AnalyzeRoute.mkResponse 200 (AnalyzeRoute.ResultJson (JObj []))).
Proof. repeat split. Qed.

(** *** The wait before a retry *)

Lemma spa_backoffAt_schedule (n : nat) :
  GeminiService.backoffAt n = nth n [2000; 5000; 15000; 35000]%Z 35000%Z.
Proof.
  unfold GeminiService.backoffAt, GeminiService.backoffDelays.
  do 4 (destruct n as [|n]; [reflexivity|]). now destruct n.
Qed.

(** C3, as the code has it.  When the first RetryInfo entry of the error's
    details carries a delay "<n>s" or "<n>ms", the wait before the next
    attempt is exactly n * 1000 or n milliseconds: in the API route for any
    n, in the SPA service for a non-zero duration.  When no delay of that
    form is found, the SPA service waits the schedule value 2s, 5s, 15s,
    35s (35s for any further index) of the attempt, and the API route waits
    2000 * 2^retryCount milliseconds (2s, 4s, 8s).  That wait is the one
    event between a retried attempt and the next invocation. *)
Theorem C3_retry_delay (JSON_parse : Parser) (provider : Provider)
    (contents : list Part) (text_ image_ : option string) (e : JsError)
    (ds : string) (fuel n : nat) :
  let millis := parseInt ds in
  let seconds := (parseInt ds * 1000)%Z in
  (all_digits ds = true -> truthy ds = true ->
   carriesGuidance e (ds ++ "s") -> timerRange seconds ->
   AnalyzeRoute.delayFor e n = seconds /\
   (seconds <> 0%Z -> GeminiService.delayFor e n = seconds)) /\
  (all_digits ds = true -> truthy ds = true ->
   carriesGuidance e (ds ++ "ms") -> timerRange millis ->
   AnalyzeRoute.delayFor e n = millis /\
   (millis <> 0%Z -> GeminiService.delayFor e n = millis)) /\
  (requestedDelay e = None ->
   GeminiService.delayFor e n = nth n [2000; 5000; 15000; 35000]%Z 35000%Z /\
   AnalyzeRoute.delayFor e n = (2000 * 2 ^ Z.of_nat n)%Z) /\
  ((n < GeminiService.maxRetries - 1)%nat ->
   (GeminiService.maxRetries - n <= fuel)%nat ->
   GeminiService.generate JSON_parse provider n contents = Thrown e ->
   GeminiService.isRetryable e = true ->
   exists tr r,
     GeminiService.retryLoop JSON_parse provider (S fuel) n contents =
     Some (Invoke contents :: Sleep (GeminiService.delayFor e n) :: tr, r) /\
     exists parts' tr', tr = Invoke parts' :: tr') /\
  (let parts := AnalyzeRoute.buildParts text_ image_ (truthy_opt image_) in
   (n < 3)%nat -> (3 - n <= fuel)%nat ->
   AnalyzeRoute.generate JSON_parse provider n parts = Thrown e ->
   AnalyzeRoute.isRetryable e = true ->
   exists tr r,
     AnalyzeRoute.attemptGeneration JSON_parse provider text_ image_ (S fuel) n =
     Some (Invoke parts :: Sleep (AnalyzeRoute.delayFor e n) :: tr, r) /\
     exists parts' tr', tr = Invoke parts' :: tr').
Proof.
  intros millis seconds. split; [|split; [|split; [|split]]].
  - intros Hd Ht Hg _.
    pose proof (requestedDelay_seconds e ds Hd Ht Hg) as Hreq. fold seconds in Hreq.
    unfold AnalyzeRoute.delayFor, GeminiService.delayFor. rewrite Hreq.
    split; [reflexivity|]. intro Hnz.
    apply Z.eqb_neq in Hnz. now rewrite Hnz.
  - intros Hd Ht Hg _.
    pose proof (requestedDelay_millis e ds Hd Ht Hg) as Hreq. fold millis in Hreq.
    unfold AnalyzeRoute.delayFor, GeminiService.delayFor. rewrite Hreq.
    split; [reflexivity|]. intro Hnz.
    apply Z.eqb_neq in Hnz. now rewrite Hnz.
  - intros Hnone. unfold AnalyzeRoute.delayFor, GeminiService.delayFor.
    rewrite Hnone. split; [apply spa_backoffAt_schedule|apply Z.mul_comm].
  - intros Hlt Hf Hg Hr.
    rewrite (spa_retryLoop_retry JSON_parse provider contents fuel n e Hlt Hg Hr).
    destruct fuel as [|fuel]; [unfold GeminiService.maxRetries in *; lia|].
    assert (Hlt' : (n + 1 < GeminiService.maxRetries)%nat) by lia.
    apply Nat.ltb_lt in Hlt'.
    cbn [GeminiService.retryLoop]. rewrite Hlt'.
    destruct (GeminiService.generate JSON_parse provider (n + 1) contents)
      as [v|e'] eqn:Hg'.
    + eauto 8.
    + destruct (GeminiService.isRetryable e' && (n + 1 <? GeminiService.maxRetries - 1)%nat);
        [|eauto 8].
      destruct (spa_retryLoop_total JSON_parse provider contents fuel (n + 1 + 1))
        as [[tr r] Htr]; [unfold GeminiService.maxRetries in *; lia|].
      unfold GeminiService.maxRetries in *. rewrite Htr. eauto 8.
  - intros parts Hlt Hf Hg Hr.
    rewrite (route_retry JSON_parse provider text_ image_ fuel n e Hg Hlt Hr).
    destruct (route_total JSON_parse provider text_ image_ fuel (n + 1))
      as [[tr r] Htr]; [lia|].
    rewrite Htr. exists tr, r. split; [reflexivity|].
    destruct fuel as [|fuel]; [discriminate|].
    cbn [AnalyzeRoute.attemptGeneration] in Htr.
    repeat match type of Htr with
           | context [match ?x with _ => _ end] => destruct x
           | context [if ?x then _ else _] => destruct x
           end; inversion Htr; eauto.
Qed.

Lemma guidedError_carries (rd : string) :
  truthy rd = true -> carriesGuidance (Samples.guidedError rd) rd.
Proof.
  intro Hrd. unfold carriesGuidance, Samples.guidedError. simpl details.
  eexists. exists (mkDetail (Some "type.googleapis.com/google.rpc.RetryInfo") (Some rd)).
  split; [reflexivity|]. split; [|reflexivity].
  cbn [find]. unfold isRetryInfo at 1. cbn [at_type retryDelay truthy_opt].
  rewrite andb_false_r. unfold isRetryInfo. cbn [at_type retryDelay truthy_opt].
  rewrite Hrd. reflexivity.
Qed.

Lemma C3_retry_delay_witness :
  (AnalyzeRoute.delayFor (Samples.guidedError "5s") 1 = 5000%Z /\
   GeminiService.delayFor (Samples.guidedError "5s") 1 = 5000%Z) /\
  (AnalyzeRoute.delayFor (Samples.guidedError "500ms") 1 = 500%Z /\
   GeminiService.delayFor (Samples.guidedError "500ms") 1 = 500%Z) /\
  (GeminiService.delayFor Samples.unavailableError 1 = 5000%Z /\
   AnalyzeRoute.delayFor Samples.unavailableError 1 = 4000%Z) /\
  (exists tr r,
     GeminiService.retryLoop JsonText.JSON_parse
       (Samples.failingThen [Samples.guidedError "5s"] (Some "{}")) 5 0
       [TextPart Samples.adText] =
     Some (Invoke [TextPart Samples.adText] :: Sleep 5000 :: tr, r) /\
     exists parts' tr', tr = Invoke parts' :: tr') /\
  (exists tr r,
     AnalyzeRoute.attemptGeneration JsonText.JSON_parse
       (Samples.failingThen [Samples.guidedError "5s"] (Some "{}"))
       (Some Samples.adText) None 5 0 =
     Some (Invoke [TextPart Samples.adText] :: Sleep 5000 :: tr, r) /\
     exists parts' tr', tr = Invoke parts' :: tr').
Proof.
  pose (p := Samples.failingThen [Samples.guidedError "5s"] (Some "{}")).
  assert (Hrange : forall d, (0 <=? d)%Z && (d <=? 2147483647)%Z = true ->
                   timerRange d).
  { intros d H. apply andb_true_iff in H as [H1 H2].
    apply Z.leb_le in H1, H2. now split. }
  destruct (C3_retry_delay JsonText.JSON_parse p [TextPart Samples.adText]
              (Some Samples.adText) None (Samples.guidedError "5s") "5" 4 1)
    as (Hs & _ & _ & _ & _).
  destruct (C3_retry_delay JsonText.JSON_parse p [TextPart Samples.adText]
              (Some Samples.adText) None (Samples.guidedError "500ms") "500" 4 1)
    as (_ & Hms & _ & _ & _).
  destruct (C3_retry_delay JsonText.JSON_parse p [TextPart Samples.adText]
              (Some Samples.adText) None Samples.unavailableError "" 4 1)
    as (_ & _ & Hnone & _ & _).
  destruct (C3_retry_delay JsonText.JSON_parse p [TextPart Samples.adText]
              (Some Samples.adText) None (Samples.guidedError "5s") "5" 4 0)
    as (_ & _ & _ & Hspa & Hroute).
  split.
  { destruct Hs as [H1 H2];
      [reflexivity|reflexivity|apply (guidedError_carries "5s"); reflexivity
      |apply Hrange; reflexivity|].
    split; [exact H1|apply H2; discriminate]. }
  split.
  { destruct Hms as [H1 H2];
      [reflexivity|reflexivity|apply (guidedError_carries "500ms"); reflexivity
      |apply Hrange; reflexivity|].
    split; [exact H1|apply H2; discriminate]. }
  split; [apply Hnone; reflexivity|].
  split.
  - apply Hspa; [unfold GeminiService.maxRetries; lia
                |unfold GeminiService.maxRetries; lia|reflexivity|reflexivity].
  - apply Hroute; [lia|lia|reflexivity|reflexivity].
Defined.

(** C3 as stated fails on the API route: with no guidance in the error, the
    wait after the second failed attempt is 4s, where the schedule of the
    claim has 5s. *)
Lemma C3_route_counterexample :
  requestedDelay Samples.unavailableError = None /\
  nth 1 GeminiService.backoffDelays 0%Z = 5000%Z /\
  exists tr response,
    AnalyzeRoute.POST JsonText.JSON_parse
      (Samples.failingThen [Samples.unavailableError; Samples.unavailableError]
         (Some "{}"))
      Samples.prodEnv Samples.textOnly = Some (tr, response) /\
    sleeps tr = [2000; 4000]%Z.
Proof.
  split; [reflexivity|]. split; [reflexivity|].
  eexists. eexists. split; [vm_compute; reflexivity|reflexivity].
Qed.

(** *** Responses that are not JSON *)

Lemma spa_parse_error_terminal :
  GeminiService.isRetryable (Error GeminiService.parseErrorMessage) = false.
Proof. reflexivity. Qed.

(** C4, as the code has it.  In the SPA service a non-empty response text
    that is not JSON makes the attempt throw the fixed "JSON Parse Error"
    error, and the call ends there with the "failed after N attempts"
    error; an empty or absent text is read as the text of the empty
    object.  In the API route a response text that is not JSON, the empty
    one included, makes the attempt throw the parser's SyntaxError, so the
    attempt gives no result. *)
Theorem C4_malformed_response (JSON_parse : Parser) (provider : Provider)
    (contents : list Part) (text_ image_ : option string)
    (raw : string) (reply : option string) (msg : string) (fuel n : nat) :
  (truthy raw = true ->
   JSON_parse raw = SyntaxError msg ->
   provider n contents = Responds (Some raw) ->
   (n < GeminiService.maxRetries)%nat ->
   GeminiService.generate JSON_parse provider n contents =
   Thrown (Error GeminiService.parseErrorMessage) /\
   GeminiService.retryLoop JSON_parse provider (S fuel) n contents =
   Some ([Invoke contents],
         Thrown (Error ("Falha na análise após " ++ show_nat (n + 1)
                        ++ " tentativas. " ++ GeminiService.parseErrorMessage)))) /\
  (truthy_opt reply = false ->
   provider n contents = Responds reply ->
   GeminiService.generate JSON_parse provider n contents =
   match JSON_parse "{}" with
   | Parsed parsed => Returned parsed
   | SyntaxError _ => Thrown (Error GeminiService.parseErrorMessage)
   end) /\
  (let parts := AnalyzeRoute.buildParts text_ image_ (truthy_opt image_) in
   JSON_parse (match reply with Some s => s | None => "undefined" end)
   = SyntaxError msg ->
   provider n parts = Responds reply ->
   AnalyzeRoute.generate JSON_parse provider n parts = Thrown (syntaxError msg) /\
   forall v,
     AnalyzeRoute.attemptGeneration JSON_parse provider text_ image_ (S fuel) n
     <> Some ([Invoke parts], Returned v)).
Proof.
  split; [|split].
  - intros Ht Hp Hr Hlt.
    assert (Hg : GeminiService.generate JSON_parse provider n contents =
                 Thrown (Error GeminiService.parseErrorMessage)).
    { unfold GeminiService.generate. rewrite Hr. unfold or_else.
      now rewrite Ht, Hp. }
    split; [exact Hg|].
    now rewrite (spa_retryLoop_final JSON_parse provider contents fuel n _ Hlt Hg
                   (or_introl spa_parse_error_terminal)).
  - intros Hf Hr. unfold GeminiService.generate. rewrite Hr.
    replace (or_else reply "{}") with "{}"; [reflexivity|].
    destruct reply as [s|]; [|reflexivity]. simpl in Hf. unfold or_else.
    now rewrite Hf.
  - intros parts Hp Hr.
    assert (Hg : AnalyzeRoute.generate JSON_parse provider n parts =
                 Thrown (syntaxError msg)).
    { unfold AnalyzeRoute.generate. now rewrite Hr, Hp. }
    split; [exact Hg|].
    intros v. cbn [AnalyzeRoute.attemptGeneration]. fold parts. rewrite Hg.
    repeat match goal with
           | |- context [match ?x with _ => _ end] => destruct x
           | |- context [if ?x then _ else _] => destruct x
           end; discriminate.
Qed.

Lemma C4_malformed_response_witness :
  (GeminiService.generate JsonText.JSON_parse
     (Samples.failingThen [] (Some "not json")) 0 [TextPart Samples.adText] =
   Thrown (Error GeminiService.parseErrorMessage) /\
   GeminiService.retryLoop JsonText.JSON_parse
     (Samples.failingThen [] (Some "not json")) 1 0 [TextPart Samples.adText] =
   Some ([Invoke [TextPart Samples.adText]],
         Thrown (Error "Falha na análise após 1 tentativas. Resposta inválida do motor de IA (JSON Parse Error)."))) /\
  GeminiService.generate JsonText.JSON_parse
    (Samples.failingThen [] (Some "")) 0 [TextPart Samples.adText] =
  Returned (JObj []) /\
  AnalyzeRoute.generate JsonText.JSON_parse
    (Samples.failingThen [] (Some "")) 0 [TextPart Samples.adText] =
  Thrown (syntaxError JsonText.syntaxErrorMessage).
Proof.
  split.
  { apply (C4_malformed_response JsonText.JSON_parse
             (Samples.failingThen [] (Some "not json")) [TextPart Samples.adText]
             (Some Samples.adText) None "not json" None
             JsonText.syntaxErrorMessage 0 0);
      [reflexivity|reflexivity|reflexivity|unfold GeminiService.maxRetries; lia]. }
  destruct (C4_malformed_response JsonText.JSON_parse
              (Samples.failingThen [] (Some "")) [TextPart Samples.adText]
              (Some Samples.adText) None "x" (Some "")
              JsonText.syntaxErrorMessage 0 0) as (_ & Hempty & Hroute).
  split.
  - apply Hempty; reflexivity.
  - apply Hroute; reflexivity.
Defined.

(** C4 as stated fails on the SPA service: when the response has no text,
    the call returns the empty object as its result. *)
Lemma C4_spa_counterexample :
  Samples.failingThen [] None 0 [TextPart Samples.adText] = Responds None /\
  GeminiService.analyzeCreative JsonText.JSON_parse
    (Samples.failingThen [] None) Samples.key Samples.adText None =
  Some ([Invoke [TextPart Samples.adText]], Returned (JObj [])).
Proof. split; reflexivity. Qed.

(** *** What a successful call returns *)

Lemma spa_generate_returned (JSON_parse : Parser) (provider : Provider)
    (n : nat) (contents : list Part) (v : Json) :
  GeminiService.generate JSON_parse provider n contents = Returned v <->
  exists reply, provider n contents = Responds reply /\
                JSON_parse (or_else reply "{}") = Parsed v.
Proof.
  unfold GeminiService.generate. split.
  - destruct (provider n contents) as [reply|e]; [|discriminate].
    destruct (JSON_parse (or_else reply "{}")) as [w|m] eqn:Hp; [|discriminate].
    intros [= <-]. eauto.
  - intros (reply & -> & ->). reflexivity.
Qed.

Lemma route_generate_returned (JSON_parse : Parser) (provider : Provider)
    (n : nat) (parts : list Part) (v : Json) :
  AnalyzeRoute.generate JSON_parse provider n parts = Returned v <->
  exists reply, provider n parts = Responds reply /\
                JSON_parse (match reply with Some s => s | None => "undefined" end)
                = Parsed v.
Proof.
  unfold AnalyzeRoute.generate. split.
  - destruct (provider n parts) as [reply|e]; [|discriminate].
    destruct (JSON_parse _) as [w|m] eqn:Hp; [|discriminate].
    intros [= <-]. eauto.
  - intros (reply & -> & ->). reflexivity.
Qed.

(** A result of the SPA loop is the value parsed from one of the replies. *)
Lemma spa_success_is_parsed (JSON_parse : Parser) (provider : Provider)
    (contents : list Part) (v : Json) (fuel : nat) :
  forall attempt tr,
  GeminiService.retryLoop JSON_parse provider fuel attempt contents
  = Some (tr, Returned v) ->
  exists k reply, provider k contents = Responds reply /\
                  JSON_parse (or_else reply "{}") = Parsed v.
Proof.
  induction fuel as [|fuel IH]; intros attempt tr; [discriminate|].
  cbn [GeminiService.retryLoop].
  destruct (attempt <? GeminiService.maxRetries)%nat; [|discriminate].
  destruct (GeminiService.generate JSON_parse provider attempt contents)
    as [w|e] eqn:Hg.
  - intros [= <- <-]. apply spa_generate_returned in Hg.
    destruct Hg as (reply & Hr & Hp). eauto.
  - destruct (GeminiService.isRetryable e && _); [|discriminate].
    destruct (GeminiService.retryLoop JSON_parse provider fuel (attempt + 1) contents)
      as [[tr' r]|] eqn:Hrec; [|discriminate].
    intros [= <- ->]. eapply IH; eauto.
Qed.

(** A result of the route's attempts is the value parsed from one of the
    replies, with the warning added when it comes from the fallback. *)
Lemma route_success_is_parsed (JSON_parse : Parser) (provider : Provider)
    (text_ image_ : option string) (v : Json) (fuel : nat) :
  forall retryCount tr,
  AnalyzeRoute.attemptGeneration JSON_parse provider text_ image_ fuel retryCount
  = Some (tr, Returned v) ->
  exists k parts reply parsed,
    provider k parts = Responds reply /\
    JSON_parse (match reply with Some s => s | None => "undefined" end)
    = Parsed parsed /\
    (v = parsed \/ v = AnalyzeRoute.withWarning parsed).
Proof.
  induction fuel as [|fuel IH]; intros rc tr; [discriminate|].
  cbn [AnalyzeRoute.attemptGeneration].
  destruct (AnalyzeRoute.generate JSON_parse provider rc _) as [w|e] eqn:Hg.
  - intros [= <- <-]. apply route_generate_returned in Hg.
    destruct Hg as (reply & Hr & Hp). eauto 8.
  - destruct ((rc <? 3)%nat && AnalyzeRoute.isRetryable e).
    + destruct (AnalyzeRoute.attemptGeneration JSON_parse provider text_ image_
                  fuel (rc + 1)) as [[tr' r]|] eqn:Hrec; [|discriminate].
      intros [= <- ->]. eapply IH; eauto.
    + destruct (truthy_opt image_ && truthy_opt text_ && (1 <=? rc)%nat);
        [|discriminate].
      destruct (AnalyzeRoute.generate JSON_parse provider (rc + 1) _)
        as [w|fe] eqn:Hf; [|discriminate].
      intros [= <- <-]. apply route_generate_returned in Hf.
      destruct Hf as (reply & Hr & Hp). eauto 8.
Qed.

(** C5, as the code has it.  Neither handler checks any field of the
    result.  Whatever value the response text of the first attempt parses
    to is returned as the success, and every success is the value parsed
    from a provider response, unchanged or, on the route's fallback, with
    the warning field set. *)
Theorem C5_result_unvalidated (JSON_parse : Parser) (provider : Provider)
    (apiKey : option string) (input : string) (base64Image : option string)
    (text_ image_ : option string) (reply : option string) (v : Json)
    (tr : Trace) (fuel : nat) :
  let contents := GeminiService.contentsOf input base64Image in
  let parts := AnalyzeRoute.buildParts text_ image_ (truthy_opt image_) in
  (truthy_opt apiKey = true ->
   provider 0%nat contents = Responds reply ->
   JSON_parse (or_else reply "{}") = Parsed v ->
   GeminiService.analyzeCreative JSON_parse provider apiKey input base64Image
   = Some ([Invoke contents], Returned v)) /\
  (provider 0%nat parts = Responds reply ->
   JSON_parse (match reply with Some s => s | None => "undefined" end)
   = Parsed v ->
   AnalyzeRoute.attemptGeneration JSON_parse provider text_ image_ (S fuel) 0
   = Some ([Invoke parts], Returned v)) /\
  (GeminiService.analyzeCreative JSON_parse provider apiKey input base64Image
   = Some (tr, Returned v) ->
   exists k reply', provider k contents = Responds reply' /\
                    JSON_parse (or_else reply' "{}") = Parsed v) /\
  (AnalyzeRoute.attemptGeneration JSON_parse provider text_ image_ fuel 0
   = Some (tr, Returned v) ->
   exists k parts' reply' parsed,
     provider k parts' = Responds reply' /\
     JSON_parse (match reply' with Some s => s | None => "undefined" end)
     = Parsed parsed /\
     (v = parsed \/ v = AnalyzeRoute.withWarning parsed)).
Proof.
  intros contents parts. split; [|split; [|split]].
  - intros Hk Hr Hp. unfold GeminiService.analyzeCreative. rewrite Hk.
    cbn [negb]. apply spa_retryLoop_returned.
    + unfold GeminiService.maxRetries. lia.
    + apply spa_generate_returned. eauto.
  - intros Hr Hp. apply route_returned. apply route_generate_returned. eauto.
  - unfold GeminiService.analyzeCreative.
    destruct (negb (truthy_opt apiKey)); [discriminate|].
    apply spa_success_is_parsed.
  - apply route_success_is_parsed.
Qed.

Lemma C5_result_unvalidated_witness :
  GeminiService.analyzeCreative JsonText.JSON_parse
    (Samples.failingThen [] (Some "[]")) Samples.key Samples.adText None
  = Some ([Invoke [TextPart Samples.adText]], Returned (JArr [])) /\
  AnalyzeRoute.attemptGeneration JsonText.JSON_parse
    (Samples.failingThen [] (Some "[]")) (Some Samples.adText) None 4 0
  = Some ([Invoke [TextPart Samples.adText]], Returned (JArr [])) /\
  (exists k reply',
     Samples.failingThen [] (Some "[]") k [TextPart Samples.adText]
     = Responds reply' /\
     JsonText.JSON_parse (or_else reply' "{}") = Parsed (JArr [])) /\
  (exists k parts' reply' parsed,
     Samples.failingThen [] (Some "[]") k parts' = Responds reply' /\
     JsonText.JSON_parse (match reply' with Some s => s | None => "undefined" end)
     = Parsed parsed /\
     (JArr [] = parsed \/ JArr [] = AnalyzeRoute.withWarning parsed)).
Proof.
  destruct (C5_result_unvalidated JsonText.JSON_parse
              (Samples.failingThen [] (Some "[]")) Samples.key Samples.adText None
              (Some Samples.adText) None (Some "[]") (JArr [])
              [Invoke [TextPart Samples.adText]] 3)
    as (H1 & H2 & H3 & _).
  destruct (C5_result_unvalidated JsonText.JSON_parse
              (Samples.failingThen [] (Some "[]")) Samples.key Samples.adText None
              (Some Samples.adText) None (Some "[]") (JArr [])
              [Invoke [TextPart Samples.adText]] 4)
    as (_ & _ & _ & H4).
  split; [apply H1; reflexivity|].
  split; [apply H2; reflexivity|].
  split; [apply H3; reflexivity|apply H4; reflexivity].
Defined.

(** C5 as stated fails: a response holding the empty object, with neither
    [agents_feedback] nor [persona_impact], is returned as a success. *)
Lemma C5_empty_result_counterexample :
  getField "agents_feedback" [] = None /\
  getField "persona_impact" [] = None /\
  AnalyzeRoute.POST JsonText.JSON_parse (Samples.failingThen [] (Some "{}"))
    Samples.prodEnv Samples.textOnly =
  Some ([Invoke [TextPart Samples.adText]],
        AnalyzeRoute.mkResponse 200 (AnalyzeRoute.ResultJson (JObj []))) /\
  GeminiService.analyzeCreative JsonText.JSON_parse
    (Samples.failingThen [] (Some "{}")) Samples.key Samples.adText None =
  Some ([Invoke [TextPart Samples.adText]], Returned (JObj [])).
Proof. repeat split. Qed.

(** *** The text-only fallback *)

Lemma getField_setField (key : string) (v : Json) (fields : list (string * Json)) :
  getField key (setField key v fields) = Some v.
Proof.
  induction fields as [|[k w] rest IH]; simpl.
  - now rewrite String.eqb_refl.
  - destruct (String.eqb k key) eqn:Hk; simpl; now rewrite Hk.
Qed.






(** *** The error of a failed fallback *)

Section RouteFallback.

Import AnalyzeRoute.

Variable JSON_parse : Parser.
Variable provider : Provider.
Variable text_ image_ : option string.

Hypothesis has_image : truthy_opt image_ = true.




End RouteFallback.




(** *** Malformed responses and the retry path *)

Lemma route_syntaxError_retryable (msg : string) :
  AnalyzeRoute.isRetryable (syntaxError msg) =
  includes msg "429" || includes msg "RESOURCE_EXHAUSTED" ||
  includes msg "timeout" || includes msg "network".
Proof.
  unfold AnalyzeRoute.isRetryable, AnalyzeRoute.isQuotaError, status_is,
    message_includes, syntaxError. cbn [status message orb].
  now rewrite !orb_false_r.
Qed.

(** C8, as the code has it.  A response that fails to parse is caught by
    the handler that catches provider errors and goes through the same
    retryability test.  In the SPA service it is the fixed "JSON Parse
    Error" error, which the test rejects: the call ends with that single
    invocation and no wait.  In the API route it is the parser's
    SyntaxError, retried (after 2000 * 2^retryCount ms) only when its
    message contains "429", "RESOURCE_EXHAUSTED", "timeout" or "network";
    otherwise no wait follows and the call ends with the SyntaxError or
    with the text-only fallback. *)
Theorem C8_malformed_retry_policy (JSON_parse : Parser) (provider : Provider)
    (contents : list Part) (text_ image_ : option string)
    (raw : string) (reply : option string) (msg : string) (fuel n : nat) :
  (truthy raw = true ->
   JSON_parse raw = SyntaxError msg ->
   provider n contents = Responds (Some raw) ->
   (n < GeminiService.maxRetries)%nat ->
   GeminiService.isRetryable (Error GeminiService.parseErrorMessage) = false /\
   exists tr,
     GeminiService.retryLoop JSON_parse provider (S fuel) n contents =
     Some (tr, Thrown (Error (GeminiService.userMessage
                                (Error GeminiService.parseErrorMessage) n))) /\
     invocations tr = 1%nat /\ sleeps tr = []) /\
  (let parts := AnalyzeRoute.buildParts text_ image_ (truthy_opt image_) in
   let textParts := AnalyzeRoute.buildParts text_ image_ false in
   JSON_parse (match reply with Some s => s | None => "undefined" end)
   = SyntaxError msg ->
   provider n parts = Responds reply ->
   AnalyzeRoute.isRetryable (syntaxError msg) =
   (includes msg "429" || includes msg "RESOURCE_EXHAUSTED" ||
    includes msg "timeout" || includes msg "network") /\
   (AnalyzeRoute.isRetryable (syntaxError msg) = false ->
    exists tr r,
      AnalyzeRoute.attemptGeneration JSON_parse provider text_ image_ (S fuel) n
      = Some (tr, r) /\
      sleeps tr = [] /\
      (tr = [Invoke parts] /\ r = Thrown (syntaxError msg) \/
       tr = [Invoke parts; Invoke textParts])) /\
   (AnalyzeRoute.isRetryable (syntaxError msg) = true -> (n < 3)%nat ->
    AnalyzeRoute.attemptGeneration JSON_parse provider text_ image_ (S fuel) n =
    match AnalyzeRoute.attemptGeneration JSON_parse provider text_ image_
            fuel (n + 1) with
    | Some (tr, r) =>
        Some (Invoke parts :: Sleep (2 ^ Z.of_nat n * 2000)%Z :: tr, r)
    | None => None
    end)).
Proof.
  split.
  - intros Ht Hp Hr Hlt. split; [reflexivity|].
    exists [Invoke contents]. split; [|split; reflexivity].
    apply spa_retryLoop_final; auto.
    unfold GeminiService.generate. rewrite Hr. unfold or_else.
    now rewrite Ht, Hp.
  - intros parts textParts Hp Hr.
    assert (Hg : AnalyzeRoute.generate JSON_parse provider n parts =
                 Thrown (syntaxError msg)).
    { unfold AnalyzeRoute.generate. now rewrite Hr, Hp. }
    split; [apply route_syntaxError_retryable|]. split.
    + intro Hno.
      destruct (truthy_opt image_ && truthy_opt text_ && (1 <=? n)%nat) eqn:Hfb.
      * apply andb_true_iff in Hfb as [Hfb Hn].
        apply andb_true_iff in Hfb as [Hi Ht]. apply Nat.leb_le in Hn.
        destruct (AnalyzeRoute.generate JSON_parse provider (n + 1) textParts)
          as [v|fe] eqn:Hf.
        -- exists [Invoke parts; Invoke textParts]. eexists.
           split; [eapply route_fallback_returned; eauto|]. auto.
        -- exists [Invoke parts; Invoke textParts]. eexists.
           split; [eapply route_fallback_thrown; eauto|]. auto.
      * exists [Invoke parts], (Thrown (syntaxError msg)).
        split; [apply route_thrown; auto|]. auto.
    + intros Hyes Hlt.
      now rewrite (route_retry JSON_parse provider text_ image_ fuel n _ Hg Hlt Hyes).
Qed.

Lemma C8_malformed_retry_policy_witness :
  (GeminiService.isRetryable (Error GeminiService.parseErrorMessage) = false /\
   exists tr,
     GeminiService.retryLoop JsonText.JSON_parse
       (Samples.failingThen [] (Some "not json")) 1 0 [TextPart Samples.adText] =
     Some (tr, Thrown (Error (GeminiService.userMessage
                                (Error GeminiService.parseErrorMessage) 0))) /\
     invocations tr = 1%nat /\ sleeps tr = []) /\
  (exists tr r,
     AnalyzeRoute.attemptGeneration JsonText.JSON_parse
       (Samples.failingThen [] (Some "not json")) (Some Samples.adText) None 1 0
     = Some (tr, r) /\
     sleeps tr = [] /\
     (tr = [Invoke [TextPart Samples.adText]] /\
      r = Thrown (syntaxError JsonText.syntaxErrorMessage) \/
      tr = [Invoke [TextPart Samples.adText]; Invoke [TextPart Samples.adText]])).
Proof.
  destruct (C8_malformed_retry_policy JsonText.JSON_parse
              (Samples.failingThen [] (Some "not json")) [TextPart Samples.adText]
              (Some Samples.adText) None "not json" (Some "not json")
              JsonText.syntaxErrorMessage 0 0) as [Hspa Hroute].
  split.
  - apply Hspa; [reflexivity|reflexivity|reflexivity
                |unfold GeminiService.maxRetries; lia].
  - destruct Hroute as (_ & Hno & _); [reflexivity|reflexivity|].
    apply Hno. reflexivity.
Defined.

(** C8 as stated fails on the SPA service: after a response that is not
    JSON the call ends with one invocation and no wait, while a transient
    provider error at the same place is waited on and retried. *)
Lemma C8_spa_counterexample :
  GeminiService.analyzeCreative JsonText.JSON_parse
    (Samples.failingThen [] (Some "not json")) Samples.key Samples.adText None =
  Some ([Invoke [TextPart Samples.adText]],
        Thrown (Error "Falha na análise após 1 tentativas. Resposta inválida do motor de IA (JSON Parse Error).")) /\
  GeminiService.analyzeCreative JsonText.JSON_parse
    (Samples.failingThen [Samples.unavailableError] (Some "{}"))
    Samples.key Samples.adText None =
  Some ([Invoke [TextPart Samples.adText]; Sleep 2000;
         Invoke [TextPart Samples.adText]], Returned (JObj [])).
Proof. split; reflexivity. Qed.

(** *** The gates before the first invocation *)

(** C9.  A submission to the API route whose text and image are both absent
    or empty fails validation with the "at least a text or an image must be
    given" issue: the route answers 400 and the provider is never invoked. *)
Theorem C9_empty_input (JSON_parse : Parser) (provider : Provider)
    (env : AnalyzeRoute.Env) (request : AnalyzeRoute.Body) :
  truthy_opt (AnalyzeRoute.text request) = false ->
  truthy_opt (AnalyzeRoute.image request) = false ->
  AnalyzeRoute.AnalyzeSchema request
  = AnalyzeRoute.Failure [AnalyzeRoute.emptyInputMessage] /\
  exists tr response,
    AnalyzeRoute.POST JSON_parse provider env request = Some (tr, response) /\
    response = AnalyzeRoute.mkResponse 400
                 (AnalyzeRoute.ErrorJson "Input inválido"
                    (AnalyzeRoute.Issues [AnalyzeRoute.emptyInputMessage])) /\
    tr = [] /\ invocations tr = 0%nat.
Proof.
  intros Ht Hi.
  assert (Hs : AnalyzeRoute.AnalyzeSchema request
               = AnalyzeRoute.Failure [AnalyzeRoute.emptyInputMessage]).
  { unfold AnalyzeRoute.AnalyzeSchema. now rewrite Ht, Hi. }
  split; [exact Hs|].
  unfold AnalyzeRoute.POST. rewrite Hs. eauto 6.
Qed.

Lemma C9_empty_input_witness :
  AnalyzeRoute.AnalyzeSchema Samples.emptyBody
  = AnalyzeRoute.Failure [AnalyzeRoute.emptyInputMessage] /\
  exists tr response,
    AnalyzeRoute.POST JsonText.JSON_parse (Samples.failingThen [] (Some "{}"))
      Samples.prodEnv Samples.emptyBody = Some (tr, response) /\
    response = AnalyzeRoute.mkResponse 400
                 (AnalyzeRoute.ErrorJson "Input inválido"
                    (AnalyzeRoute.Issues [AnalyzeRoute.emptyInputMessage])) /\
    tr = [] /\ invocations tr = 0%nat.
Proof.
  exact (C9_empty_input JsonText.JSON_parse (Samples.failingThen [] (Some "{}"))
           Samples.prodEnv Samples.emptyBody eq_refl eq_refl).
Defined.

(** C10, as the code has it.  With the API key absent or empty, the SPA
    service throws "API Key configuration error" for every input, and the
    API route answers 500 with its configuration message for every request
    that passes validation; in both the provider is never invoked and no
    wait happens. *)
Theorem C10_missing_api_key (JSON_parse : Parser) (provider : Provider)
    (apiKey : option string) (input : string) (base64Image : option string)
    (env : AnalyzeRoute.Env) (request : AnalyzeRoute.Body) :
  (truthy_opt apiKey = false ->
   GeminiService.analyzeCreative JSON_parse provider apiKey input base64Image
   = Some ([], Thrown (Error "API Key configuration error"))) /\
  (truthy_opt (AnalyzeRoute.GEMINI_API_KEY env) = false ->
   hasInput request = true ->
   AnalyzeRoute.POST JSON_parse provider env request
   = Some ([], AnalyzeRoute.mkResponse 500
                 (AnalyzeRoute.ErrorJson AnalyzeRoute.missingKeyMessage
                    AnalyzeRoute.NoDetails))).
Proof.
  split.
  - intro Hk. unfold GeminiService.analyzeCreative. now rewrite Hk.
  - intros Hk Hin. unfold AnalyzeRoute.POST, AnalyzeRoute.AnalyzeSchema.
    unfold hasInput in Hin. now rewrite Hin, Hk.
Qed.

Lemma C10_missing_api_key_witness :
  GeminiService.analyzeCreative JsonText.JSON_parse
    (Samples.failingThen [] (Some "{}")) None Samples.adText None
  = Some ([], Thrown (Error "API Key configuration error")) /\
  AnalyzeRoute.POST JsonText.JSON_parse (Samples.failingThen [] (Some "{}"))
    Samples.noKeyEnv Samples.textOnly
  = Some ([], AnalyzeRoute.mkResponse 500
                (AnalyzeRoute.ErrorJson AnalyzeRoute.missingKeyMessage
                   AnalyzeRoute.NoDetails)).
Proof.
  destruct (C10_missing_api_key JsonText.JSON_parse
              (Samples.failingThen [] (Some "{}")) None Samples.adText None
              Samples.noKeyEnv Samples.textOnly) as [Hspa Hroute].
  split; [apply Hspa; reflexivity|apply Hroute; reflexivity].
Defined.

(** C10 as stated fails on the API route: an empty submission is answered
    400 by the validation, which runs before the key is read. *)
Lemma C10_route_counterexample :
  AnalyzeRoute.GEMINI_API_KEY Samples.noKeyEnv = None /\
  AnalyzeRoute.POST JsonText.JSON_parse (Samples.failingThen [] (Some "{}"))
    Samples.noKeyEnv Samples.emptyBody
  = Some ([], AnalyzeRoute.mkResponse 400
                (AnalyzeRoute.ErrorJson "Input inválido"
                   (AnalyzeRoute.Issues [AnalyzeRoute.emptyInputMessage]))).
Proof. split; reflexivity. Qed.

(** ** Further properties of the SPA service *)

Local Open Scope list_scope.

Lemma invocations_retried (parts : list Part) (delays : list Z) (tl : Trace) :
  invocations (retried parts delays ++ tl) = (length delays + invocations tl)%nat.
Proof.
  induction delays as [|d ds IH]; [reflexivity|].
  cbn [retried app]. rewrite invocations_cons_invoke, invocations_cons_sleep, IH.
  reflexivity.
Qed.

Lemma sleeps_retried (parts : list Part) (delays : list Z) (tl : Trace) :
  sleeps (retried parts delays ++ tl) = delays ++ sleeps tl.
Proof.
  induction delays as [|d ds IH]; [reflexivity|].
  cbn [retried app sleeps]. now rewrite IH.
Qed.

Section SpaRuns.

Import GeminiService.

Variable JSON_parse : Parser.
Variable provider : Provider.
Variable contents : list Part.

(** A run of the loop is a series of retried attempts and a last attempt,
    all with the same contents, and the attempts stay below [maxRetries]. *)
Lemma spa_retryLoop_shape (fuel : nat) :
  forall attempt tr r,
  (attempt < maxRetries)%nat ->
  retryLoop JSON_parse provider fuel attempt contents = Some (tr, r) ->
  exists delays,
    tr = retried contents delays ++ [Invoke contents] /\
    (attempt + length delays < maxRetries)%nat.
Proof.
  pose proof (eq_refl : maxRetries = 4%nat) as Hmax.
  induction fuel as [|fuel IH]; intros attempt tr r Hlt; [discriminate|].
  cbn [retryLoop]. rewrite (proj2 (Nat.ltb_lt _ _) Hlt).
  destruct (generate JSON_parse provider attempt contents) as [v|e].
  - intros [= <- <-]. exists []. split; [reflexivity|simpl; lia].
  - destruct (isRetryable e); cbn [andb].
    + destruct (Nat.ltb_spec attempt (maxRetries - 1)) as [Hlt1|Hge1].
      * destruct (retryLoop JSON_parse provider fuel (attempt + 1) contents)
          as [[tr' r']|] eqn:Hrec; [|discriminate].
        intros [= <- <-].
        assert (Hlt2 : (attempt + 1 < maxRetries)%nat) by lia.
        destruct (IH _ _ _ Hlt2 Hrec) as (delays & -> & Hlen).
        exists (delayFor e attempt :: delays). split; [reflexivity|simpl; lia].
      * intros [= <- <-]. exists []. split; [reflexivity|simpl; lia].
    + intros [= <- <-]. exists []. split; [reflexivity|simpl; lia].
Qed.

(** The error thrown by the loop is built from the error of its last
    attempt, and counts the attempts made. *)
Lemma spa_retryLoop_thrown (fuel : nat) :
  forall attempt tr err,
  (attempt < maxRetries)%nat ->
  retryLoop JSON_parse provider fuel attempt contents = Some (tr, Thrown err) ->
  exists e,
    generate JSON_parse provider (attempt + invocations tr - 1) contents
    = Thrown e /\
    err = Error (userMessage e (attempt + invocations tr - 1)).
Proof.
  pose proof (eq_refl : maxRetries = 4%nat) as Hmax.
  induction fuel as [|fuel IH]; intros attempt tr err Hlt; [discriminate|].
  cbn [retryLoop]. rewrite (proj2 (Nat.ltb_lt _ _) Hlt).
  destruct (generate JSON_parse provider attempt contents) as [v|e] eqn:Hg;
    [discriminate|].
  assert (Hlast : forall x : JsError,
            Some ([Invoke contents], @Thrown Json (Error (userMessage e attempt)))
            = Some (tr, Thrown x) ->
            exists e0,
              generate JSON_parse provider (attempt + invocations tr - 1) contents
              = Thrown e0 /\
              x = Error (userMessage e0 (attempt + invocations tr - 1))).
  { intros x [= <- <-]. exists e. cbn.
    replace (attempt + 1 - 1)%nat with attempt by lia. now split. }
  destruct (isRetryable e); cbn [andb]; [|apply Hlast].
  destruct (Nat.ltb_spec attempt (maxRetries - 1)) as [Hlt1|Hge1]; [|apply Hlast].
  destruct (retryLoop JSON_parse provider fuel (attempt + 1) contents)
    as [[tr' r']|] eqn:Hrec; [|discriminate].
  intros [= <- ->].
  assert (Hlt2 : (attempt + 1 < maxRetries)%nat) by lia.
  destruct (spa_retryLoop_shape _ _ _ _ Hlt2 Hrec) as (delays & Htr & _).
  destruct (IH _ _ _ Hlt2 Hrec) as (e0 & Hg0 & Herr).
  assert (Hinv : (1 <= invocations tr')%nat).
  { rewrite Htr, invocations_retried. cbn. lia. }
  exists e0. rewrite invocations_cons_invoke, invocations_cons_sleep.
  replace (attempt + S (invocations tr') - 1)%nat
    with (attempt + 1 + invocations tr' - 1)%nat by lia.
  now split.
Qed.

(** Retryable rejections followed by a reply that parses: the loop returns
    the parsed value after one invocation per rejection and one more. *)
Lemma spa_retryLoop_recovers (k : nat) :
  forall fuel attempt reply v,
  (attempt + k < maxRetries)%nat -> (k < fuel)%nat ->
  (forall n, (attempt <= n < attempt + k)%nat ->
     exists e, provider n contents = Rejects e /\ isRetryable e = true) ->
  provider (attempt + k)%nat contents = Responds reply ->
  JSON_parse (or_else reply "{}") = Parsed v ->
  exists delays,
    retryLoop JSON_parse provider fuel attempt contents
    = Some (retried contents delays ++ [Invoke contents], Returned v) /\
    length delays = k.
Proof.
  pose proof (eq_refl : maxRetries = 4%nat) as Hmax.
  induction k as [|k IH]; intros fuel attempt reply v Hlt Hf Hrej Hrep Hp;
    (destruct fuel as [|fuel]; [lia|]).
  - exists []. split; [|reflexivity]. rewrite Nat.add_0_r in Hrep.
    apply spa_retryLoop_returned; [lia|].
    unfold generate. now rewrite Hrep, Hp.
  - assert (Hin : (attempt <= attempt < attempt + S k)%nat) by lia.
    destruct (Hrej attempt Hin) as (e & He & Hr).
    destruct (IH fuel (attempt + 1)%nat reply v) as (delays & Hrun & Hlen); auto.
    + lia.
    + lia.
    + intros n Hn. apply Hrej. lia.
    + now replace (attempt + 1 + k)%nat with (attempt + S k)%nat by lia.
    + exists (delayFor e attempt :: delays). split; [|simpl; now rewrite Hlen].
      rewrite (spa_retryLoop_retry JSON_parse provider contents fuel attempt e).
      * fold (retryLoop JSON_parse provider). now rewrite Hrun.
      * unfold maxRetries in *. lia.
      * now apply spa_generate_rejects.
      * exact Hr.
Qed.

End SpaRuns.

(** Whatever the provider does, a call of the SPA service that has a key
    invokes it at least once and at most [maxRetries] = 4 times, always with
    the same contents, waits exactly once between two invocations (so at
    most 3 times), and does nothing else. *)
Theorem spa_run_shape (JSON_parse : Parser) (provider : Provider)
    (apiKey : option string) (input : string) (base64Image : option string)
    (tr : Trace) (r : Completion Json) :
  let contents := GeminiService.contentsOf input base64Image in
  truthy_opt apiKey = true ->
  GeminiService.analyzeCreative JSON_parse provider apiKey input base64Image
  = Some (tr, r) ->
  exists delays,
    tr = retried contents delays ++ [Invoke contents] /\
    (length delays <= 3)%nat /\
    invocations tr = S (length delays) /\
    (invocations tr <= GeminiService.maxRetries)%nat /\
    sleeps tr = delays.
Proof.
  intros contents Hkey. unfold GeminiService.analyzeCreative.
  rewrite Hkey. cbn [negb]. intro Hrun.
  apply spa_retryLoop_shape in Hrun; [|unfold GeminiService.maxRetries; lia].
  destruct Hrun as (delays & -> & Hlen). unfold GeminiService.maxRetries in *.
  exists delays. rewrite invocations_retried, sleeps_retried. cbn.
  repeat split; try lia. apply app_nil_r.
Qed.

Lemma spa_run_shape_witness :
  exists delays,
    [Invoke [TextPart Samples.adText]; Sleep 2000;
     Invoke [TextPart Samples.adText]]
    = retried [TextPart Samples.adText] delays ++ [Invoke [TextPart Samples.adText]] /\
    (length delays <= 3)%nat /\
    invocations [Invoke [TextPart Samples.adText]; Sleep 2000;
                 Invoke [TextPart Samples.adText]] = S (length delays) /\
    (invocations [Invoke [TextPart Samples.adText]; Sleep 2000;
                  Invoke [TextPart Samples.adText]] <= GeminiService.maxRetries)%nat /\
    sleeps [Invoke [TextPart Samples.adText]; Sleep 2000;
            Invoke [TextPart Samples.adText]] = delays.
Proof.
  exact (spa_run_shape JsonText.JSON_parse
           (Samples.failingThen [Samples.unavailableError] (Some "{}"))
           Samples.key Samples.adText None _ _ eq_refl eq_refl).
Defined.

(** When the provider rejects the first k invocations (k <= 3) with
    retryable errors and then answers with a text that parses, the SPA
    service returns the parsed value after exactly k + 1 invocations and k
    waits. *)
Theorem spa_recovers (JSON_parse : Parser) (provider : Provider)
    (apiKey : option string) (input : string) (base64Image : option string)
    (k : nat) (reply : option string) (v : Json) :
  let contents := GeminiService.contentsOf input base64Image in
  truthy_opt apiKey = true ->
  (k < GeminiService.maxRetries)%nat ->
  (forall n, (n < k)%nat ->
     exists e, provider n contents = Rejects e /\
               GeminiService.isRetryable e = true) ->
  provider k contents = Responds reply ->
  JSON_parse (or_else reply "{}") = Parsed v ->
  exists delays,
    GeminiService.analyzeCreative JSON_parse provider apiKey input base64Image
    = Some (retried contents delays ++ [Invoke contents], Returned v) /\
    length delays = k.
Proof.
  intros contents Hkey Hk Hrej Hrep Hp. unfold GeminiService.analyzeCreative.
  rewrite Hkey. cbn [negb].
  apply (spa_retryLoop_recovers JSON_parse provider contents k
           (S GeminiService.maxRetries) 0 reply v); auto;
    try (unfold GeminiService.maxRetries in *; lia).
  intros n Hn. apply Hrej. lia.
Qed.

Lemma spa_recovers_witness :
  exists delays,
    GeminiService.analyzeCreative JsonText.JSON_parse
      (Samples.failingThen [Samples.unavailableError; Samples.quotaError]
         (Some "{}"))
      Samples.key Samples.adText None
    = Some (retried [TextPart Samples.adText] delays
              ++ [Invoke [TextPart Samples.adText]], Returned (JObj [])) /\
    length delays = 2%nat.
Proof.
  apply (spa_recovers JsonText.JSON_parse
           (Samples.failingThen [Samples.unavailableError; Samples.quotaError]
              (Some "{}"))
           Samples.key Samples.adText None 2 (Some "{}") (JObj [])).
  - reflexivity.
  - unfold GeminiService.maxRetries. lia.
  - intros n Hn. destruct n as [|[|n]].
    + exists Samples.unavailableError. split; reflexivity.
    + exists Samples.quotaError. split; reflexivity.
    + lia.
  - reflexivity.
  - reflexivity.
Defined.

(** When a call of the SPA service that has a key throws, the error is
    built from the error of the last attempt: the overload message when
    that error has status 429, else "Falha na análise após N tentativas."
    followed by its message, where N is the number of invocations made.
    The "Erro desconhecido na análise." thrown after the loop is never
    reached. *)
Theorem spa_thrown_error (JSON_parse : Parser) (provider : Provider)
    (apiKey : option string) (input : string) (base64Image : option string)
    (tr : Trace) (err : JsError) :
  let contents := GeminiService.contentsOf input base64Image in
  truthy_opt apiKey = true ->
  GeminiService.analyzeCreative JSON_parse provider apiKey input base64Image
  = Some (tr, Thrown err) ->
  (exists e,
     GeminiService.generate JSON_parse provider (invocations tr - 1) contents
     = Thrown e /\
     err = Error (if status_is e 429 then GeminiService.overloadedMessage
                  else ("Falha na análise após " ++ show_nat (invocations tr)
                        ++ " tentativas. " ++ message_text e)%string)) /\
  err <> Error "Erro desconhecido na análise.".
Proof.
  intros contents Hkey. unfold GeminiService.analyzeCreative.
  rewrite Hkey. cbn [negb]. intro Hrun.
  assert (Hlt : (0 < GeminiService.maxRetries)%nat)
    by (unfold GeminiService.maxRetries; lia).
  destruct (spa_retryLoop_shape _ _ _ _ _ _ _ Hlt Hrun) as (delays & Htr & _).
  destruct (spa_retryLoop_thrown _ _ _ _ _ _ _ Hlt Hrun) as (e & Hg & Herr).
  assert (Hinv : (1 <= invocations tr)%nat).
  { rewrite Htr, invocations_retried. cbn. lia. }
  cbn [Nat.add] in Hg, Herr.
  assert (Hmsg : err =
            Error (if status_is e 429 then GeminiService.overloadedMessage
                   else ("Falha na análise após " ++ show_nat (invocations tr)
                         ++ " tentativas. " ++ message_text e)%string)).
  { rewrite Herr. unfold GeminiService.userMessage.
    now replace (invocations tr - 1 + 1)%nat with (invocations tr) by lia. }
  split; [exists e; now split|].
  rewrite Hmsg. destruct (status_is e 429); intros [= H].
Qed.

Lemma spa_thrown_error_witness :
  (exists e,
     GeminiService.generate JsonText.JSON_parse
       (Samples.always Samples.unavailableError) 3 [TextPart Samples.adText]
     = Thrown e /\
     Error "Falha na análise após 4 tentativas. Service Unavailable"
     = Error (if status_is e 429 then GeminiService.overloadedMessage
              else ("Falha na análise após " ++ show_nat 4
                    ++ " tentativas. " ++ message_text e)%string)) /\
  Error "Falha na análise após 4 tentativas. Service Unavailable"
  <> Error "Erro desconhecido na análise.".
Proof.
  exact (spa_thrown_error JsonText.JSON_parse
           (Samples.always Samples.unavailableError)
           Samples.key Samples.adText None
           [Invoke [TextPart Samples.adText]; Sleep 2000;
            Invoke [TextPart Samples.adText]; Sleep 5000;
            Invoke [TextPart Samples.adText]; Sleep 15000;
            Invoke [TextPart Samples.adText]]
           (Error "Falha na análise após 4 tentativas. Service Unavailable")
           eq_refl eq_refl).
Defined.

(** *** The waits of the SPA service *)

Lemma parseInt_from_nonneg (ds : string) :
  forall acc, all_digits ds = true -> (0 <= acc)%Z -> (0 <= parseInt_from acc ds)%Z.
Proof.
  induction ds as [|c ds IH]; intros acc Hd Hacc; [exact Hacc|].
  simpl in Hd. apply andb_true_iff in Hd as [Hc Hd]. cbn [parseInt_from].
  apply IH; [exact Hd|]. unfold is_digit in Hc.
  apply andb_true_iff in Hc as [Hlo _]. apply Nat.leb_le in Hlo. lia.
Qed.

Lemma span_digits_all_digits (s : string) :
  all_digits (fst (span_digits s)) = true.
Proof.
  induction s as [|c s IH]; [reflexivity|]. cbn [span_digits].
  destruct (is_digit c) eqn:Hc; [|reflexivity].
  destruct (span_digits s) as [ds tl]. simpl in *. now rewrite Hc, IH.
Qed.

Lemma requestedDelay_nonneg (e : JsError) (d : Z) :
  requestedDelay e = Some d -> (0 <= d)%Z.
Proof.
  unfold requestedDelay.
  destruct (details e) as [l|]; [|discriminate].
  destruct (find isRetryInfo l) as [ri|]; [|discriminate].
  destruct (retryDelay ri) as [rd|]; [|discriminate].
  unfold matchRetryDelay. pose proof (span_digits_all_digits rd) as Hall.
  destruct (span_digits rd) as [ds u]. simpl in Hall.
  destruct (truthy ds && _); [|discriminate].
  cbn [option_map delayOfMatch]. intros [= <-].
  pose proof (parseInt_from_nonneg ds 0 Hall (Z.le_refl 0)) as Hp.
  fold (parseInt ds) in Hp. destruct (String.eqb u "s"); lia.
Qed.

Lemma spa_backoffAt_pos (n : nat) : (0 < GeminiService.backoffAt n)%Z.
Proof.
  rewrite spa_backoffAt_schedule.
  do 4 (destruct n as [|n]; [reflexivity|]). now destruct n.
Qed.

Lemma spa_delayFor_pos (e : JsError) (n : nat) :
  (0 < GeminiService.delayFor e n)%Z.
Proof.
  unfold GeminiService.delayFor.
  destruct (requestedDelay e) as [d|] eqn:Hreq.
  - apply requestedDelay_nonneg in Hreq.
    destruct (Z.eqb_spec d 0); [apply spa_backoffAt_pos|lia].
  - apply spa_backoffAt_pos.
Qed.

Section SpaWaits.

Import GeminiService.

Variable JSON_parse : Parser.
Variable provider : Provider.
Variable contents : list Part.

Lemma spa_sleeps_in_range (fuel : nat) :
  (forall n e d, provider n contents = Rejects e ->
                 requestedDelay e = Some d -> timerRange d) ->
  forall attempt tr r,
  retryLoop JSON_parse provider fuel attempt contents = Some (tr, r) ->
  Forall (fun d => (1 <= d <= 2147483647)%Z) (sleeps tr).
Proof.
  intro Hrange.
  induction fuel as [|fuel IH]; intros attempt tr r; [discriminate|].
  cbn [retryLoop].
  destruct (attempt <? maxRetries)%nat; [|intros [= <- <-]; constructor].
  destruct (generate JSON_parse provider attempt contents) as [v|e] eqn:Hg;
    [intros [= <- <-]; constructor|].
  destruct (isRetryable e && _); [|intros [= <- <-]; constructor].
  destruct (retryLoop JSON_parse provider fuel (attempt + 1) contents)
    as [[tr' r']|] eqn:Hrec; [|discriminate].
  intros [= <- <-]. cbn [sleeps]. constructor; [|eapply IH; eauto].
  pose proof (spa_delayFor_pos e attempt) as Hpos.
  split; [lia|].
  unfold delayFor in *.
  assert (Hback : (backoffAt attempt <= 2147483647)%Z).
  { rewrite spa_backoffAt_schedule.
    do 4 (destruct attempt as [|attempt]; [cbn; lia|]).
    destruct attempt; cbn; lia. }
  destruct (requestedDelay e) as [d|] eqn:Hreq; [|exact Hback].
  destruct (d =? 0)%Z; [exact Hback|].
  unfold generate in Hg. destruct (provider attempt contents) as [reply|e'] eqn:Hp.
  - destruct (JSON_parse _); [discriminate|]. injection Hg as <-. discriminate.
  - injection Hg as ->. destruct (Hrange _ _ _ Hp Hreq) as [_ Hd]. exact Hd.
Qed.

Hypothesis no_guidance :
  forall n e, provider n contents = Rejects e -> requestedDelay e = None.

Lemma spa_generate_no_guidance (n : nat) (e : JsError) :
  generate JSON_parse provider n contents = Thrown e -> requestedDelay e = None.
Proof.
  unfold generate. destruct (provider n contents) as [reply|e'] eqn:Hp.
  - destruct (JSON_parse _); [discriminate|]. now intros [= <-].
  - intros [= <-]. eapply no_guidance; eauto.
Qed.

Lemma spa_sleeps_schedule (fuel : nat) :
  forall attempt tr r,
  retryLoop JSON_parse provider fuel attempt contents = Some (tr, r) ->
  sleeps tr = map backoffAt (seq attempt (length (sleeps tr))).
Proof.
  induction fuel as [|fuel IH]; intros attempt tr r; [discriminate|].
  cbn [retryLoop].
  destruct (attempt <? maxRetries)%nat; [|intros [= <- <-]; reflexivity].
  destruct (generate JSON_parse provider attempt contents) as [v|e] eqn:Hg;
    [intros [= <- <-]; reflexivity|].
  destruct (isRetryable e && _); [|intros [= <- <-]; reflexivity].
  destruct (retryLoop JSON_parse provider fuel (attempt + 1) contents)
    as [[tr' r']|] eqn:Hrec; [|discriminate].
  intros [= <- <-]. cbn [sleeps length seq map].
  rewrite (IH _ _ _ Hrec) at 1. f_equal.
  - unfold delayFor. now rewrite (spa_generate_no_guidance _ _ Hg).
  - now rewrite Nat.add_1_r.
Qed.

End SpaWaits.

(** When every retry delay the provider's errors ask for is one the timer
    waits for as given (at most 2^31 - 1 ms), every wait of the SPA service
    between two invocations is a real wait: at least one millisecond (a
    delay of zero is replaced by the schedule value) and within the
    timer's range. *)
Theorem spa_waits_positive (JSON_parse : Parser) (provider : Provider)
    (apiKey : option string) (input : string) (base64Image : option string)
    (tr : Trace) (r : Completion Json) :
  (forall n e d,
     provider n (GeminiService.contentsOf input base64Image) = Rejects e ->
     requestedDelay e = Some d -> timerRange d) ->
  GeminiService.analyzeCreative JSON_parse provider apiKey input base64Image
  = Some (tr, r) ->
  Forall (fun d => (1 <= d <= 2147483647)%Z) (sleeps tr).
Proof.
  intros Hrange. unfold GeminiService.analyzeCreative.
  destruct (negb (truthy_opt apiKey)); [intros [= <- <-]; constructor|].
  apply spa_sleeps_in_range. exact Hrange.
Qed.

Lemma spa_waits_positive_witness :
  Forall (fun d => (1 <= d <= 2147483647)%Z) [2000; 5000]%Z.
Proof.
  apply (spa_waits_positive JsonText.JSON_parse
           (Samples.failingThen
              [Samples.guidedError "0s"; Samples.guidedError "5s"] (Some "{}"))
           Samples.key Samples.adText None
           [Invoke [TextPart Samples.adText]; Sleep 2000;
            Invoke [TextPart Samples.adText]; Sleep 5000;
            Invoke [TextPart Samples.adText]]
           (Returned (JObj []))).
  - intros n e d Hp Hd. destruct n as [|[|n]]; cbn in Hp.
    + injection Hp as <-. injection Hd as <-. split; discriminate.
    + injection Hp as <-. injection Hd as <-. split; discriminate.
    + destruct n; discriminate.
  - reflexivity.
Defined.

(** When no error of the provider carries a usable retry delay, the waits
    of a call of the SPA service are the first values of 2s, 5s, 15s, in
    that order, so a call waits 22 seconds at most in all; the 35s entry of
    the schedule is never used. *)
Theorem spa_waits_without_guidance (JSON_parse : Parser) (provider : Provider)
    (apiKey : option string) (input : string) (base64Image : option string)
    (tr : Trace) (r : Completion Json) :
  (forall n e, provider n (GeminiService.contentsOf input base64Image) = Rejects e ->
               requestedDelay e = None) ->
  GeminiService.analyzeCreative JSON_parse provider apiKey input base64Image
  = Some (tr, r) ->
  sleeps tr = firstn (length (sleeps tr)) [2000; 5000; 15000]%Z /\
  (fold_right Z.add 0 (sleeps tr) <= 22000)%Z /\
  ~ In 35000%Z (sleeps tr).
Proof.
  intros Hng Hrun.
  assert (Hshape : (length (sleeps tr) <= 3)%nat /\
                   sleeps tr = map GeminiService.backoffAt
                                 (seq 0 (length (sleeps tr)))).
  { revert Hrun. unfold GeminiService.analyzeCreative.
    destruct (negb (truthy_opt apiKey)).
    - intros [= <- <-]. split; [simpl; lia|reflexivity].
    - intro Hrun. split.
      + apply spa_retryLoop_shape in Hrun;
          [|unfold GeminiService.maxRetries; lia].
        destruct Hrun as (delays & -> & Hlen).
        rewrite sleeps_retried, length_app. unfold GeminiService.maxRetries in *.
        simpl. lia.
      + eapply spa_sleeps_schedule; eauto. }
  destruct Hshape as [Hlen Hsched]. rewrite Hsched.
  destruct (length (sleeps tr)) as [|[|[|[|n]]]]; [| | | |lia];
    rewrite length_map, length_seq; cbn;
    (split; [reflexivity|split; [lia|intuition discriminate]]).
Qed.

Lemma spa_waits_without_guidance_witness :
  [2000; 5000; 15000]%Z = firstn 3 [2000; 5000; 15000]%Z /\
  (fold_right Z.add 0 [2000; 5000; 15000] <= 22000)%Z /\
  ~ In 35000%Z [2000; 5000; 15000]%Z.
Proof.
  apply (spa_waits_without_guidance JsonText.JSON_parse
           (Samples.always Samples.unavailableError)
           Samples.key Samples.adText None
           [Invoke [TextPart Samples.adText]; Sleep 2000;
            Invoke [TextPart Samples.adText]; Sleep 5000;
            Invoke [TextPart Samples.adText]; Sleep 15000;
            Invoke [TextPart Samples.adText]]
           (Thrown (Error "Falha na análise após 4 tentativas. Service Unavailable"))).
  - intros n e [= <-]. reflexivity.
  - reflexivity.
Defined.

(** ** Further properties of the API route *)

Section RouteRuns.

Import AnalyzeRoute.

Variable JSON_parse : Parser.
Variable provider : Provider.
Variable text_ image_ : option string.

(** A run of the attempts is a series of retried attempts and a last
    attempt, all with the request's parts, and then at most the text-only
    invocation. *)
Lemma route_attempts_shape (fuel : nat) :
  forall retryCount tr r,
  attemptGeneration JSON_parse provider text_ image_ fuel retryCount
  = Some (tr, r) ->
  exists delays fallback,
    tr = retried (buildParts text_ image_ (truthy_opt image_)) delays
         ++ Invoke (buildParts text_ image_ (truthy_opt image_)) :: fallback /\
    (length delays <= 3 - retryCount)%nat /\
    (fallback = [] \/
     fallback = [Invoke (buildParts text_ image_ false)] /\
     truthy_opt text_ && truthy_opt image_ = true /\
     (1 <= retryCount + length delays)%nat).
Proof.
  induction fuel as [|fuel IH]; intros rc tr r; [discriminate|].
  cbn [attemptGeneration].
  destruct (generate JSON_parse provider rc _) as [v|e].
  - intros [= <- <-]. exists [], []. split; [reflexivity|].
    split; [cbn [length]; lia|now left].
  - destruct (Nat.ltb_spec rc 3) as [Hlt|Hge]; cbn [andb].
    + destruct (isRetryable e).
      * destruct (attemptGeneration JSON_parse provider text_ image_ fuel (rc + 1))
          as [[tr' r']|] eqn:Hrec; [|discriminate].
        intros [= <- <-].
        destruct (IH _ _ _ Hrec) as (delays & fb & -> & Hlen & Hfb).
        exists (delayFor e rc :: delays), fb. split; [reflexivity|].
        split; [cbn [length]; lia|].
        destruct Hfb as [->|(-> & Hb & Hn)]; [now left|right].
        repeat split; auto. cbn [length]. lia.
      * destruct (truthy_opt image_ && truthy_opt text_ && (1 <=? rc)%nat) eqn:Hc.
        -- apply andb_true_iff in Hc as [Hc Hn].
           apply Nat.leb_le in Hn. rewrite andb_comm in Hc.
           destruct (generate JSON_parse provider (rc + 1) _);
             intros [= <- <-]; exists [], [Invoke (buildParts text_ image_ false)];
             (split; [reflexivity|]); (split; [cbn [length]; lia|]); right;
             repeat split; auto; cbn [length]; lia.
        -- intros [= <- <-]. exists [], []. split; [reflexivity|].
           split; [cbn [length]; lia|now left].
    + destruct (truthy_opt image_ && truthy_opt text_ && (1 <=? rc)%nat) eqn:Hc.
      * apply andb_true_iff in Hc as [Hc Hn].
        apply Nat.leb_le in Hn. rewrite andb_comm in Hc.
        destruct (generate JSON_parse provider (rc + 1) _);
          intros [= <- <-]; exists [], [Invoke (buildParts text_ image_ false)];
          (split; [reflexivity|]); (split; [cbn [length]; lia|]); right;
          repeat split; auto; cbn [length]; lia.
      * intros [= <- <-]. exists [], []. split; [reflexivity|].
        split; [cbn [length]; lia|now left].
Qed.

(** Retryable rejections followed by a reply that parses: the attempts
    return the parsed value as it is. *)
Lemma route_attempts_recover (k : nat) :
  forall fuel retryCount reply v,
  (retryCount + k <= 3)%nat -> (k < fuel)%nat ->
  (forall n, (retryCount <= n < retryCount + k)%nat ->
     exists e, provider n (buildParts text_ image_ (truthy_opt image_)) = Rejects e /\
               isRetryable e = true) ->
  provider (retryCount + k)%nat (buildParts text_ image_ (truthy_opt image_))
  = Responds reply ->
  JSON_parse (match reply with Some s => s | None => "undefined" end) = Parsed v ->
  exists delays,
    attemptGeneration JSON_parse provider text_ image_ fuel retryCount
    = Some (retried (buildParts text_ image_ (truthy_opt image_)) delays
            ++ [Invoke (buildParts text_ image_ (truthy_opt image_))],
            Returned v) /\
    length delays = k.
Proof.
  induction k as [|k IH]; intros fuel rc reply v Hlt Hf Hrej Hrep Hp;
    (destruct fuel as [|fuel]; [lia|]).
  - exists []. split; [|reflexivity]. rewrite Nat.add_0_r in Hrep.
    apply route_returned. unfold generate. now rewrite Hrep, Hp.
  - assert (Hin : (rc <= rc < rc + S k)%nat) by lia.
    destruct (Hrej rc Hin) as (e & He & Hr).
    destruct (IH fuel (rc + 1)%nat reply v) as (delays & Hrun & Hlen); auto.
    + lia.
    + lia.
    + intros n Hn. apply Hrej. lia.
    + now replace (rc + 1 + k)%nat with (rc + S k)%nat by lia.
    + exists (delayFor e rc :: delays). split; [|simpl; now rewrite Hlen].
      rewrite (route_retry JSON_parse provider text_ image_ fuel rc e).
      * now rewrite Hrun.
      * now apply route_generate_rejects.
      * lia.
      * exact Hr.
Qed.

Hypothesis no_guidance :
  forall n ps e, provider n ps = Rejects e -> requestedDelay e = None.

Lemma route_generate_no_guidance (n : nat) (ps : list Part) (e : JsError) :
  generate JSON_parse provider n ps = Thrown e -> requestedDelay e = None.
Proof.
  unfold generate. destruct (provider n ps) as [reply|e'] eqn:Hp.
  - destruct (JSON_parse _); [discriminate|]. now intros [= <-].
  - intros [= <-]. eapply no_guidance; eauto.
Qed.

Lemma route_sleeps_schedule (fuel : nat) :
  forall retryCount tr r,
  attemptGeneration JSON_parse provider text_ image_ fuel retryCount
  = Some (tr, r) ->
  sleeps tr = map (fun n => (2 ^ Z.of_nat n * 2000)%Z)
                (seq retryCount (length (sleeps tr))).
Proof.
  induction fuel as [|fuel IH]; intros rc tr r; [discriminate|].
  cbn [attemptGeneration].
  destruct (generate JSON_parse provider rc _) as [v|e] eqn:Hg;
    [intros [= <- <-]; reflexivity|].
  destruct ((rc <? 3)%nat && isRetryable e).
  - destruct (attemptGeneration JSON_parse provider text_ image_ fuel (rc + 1))
      as [[tr' r']|] eqn:Hrec; [|discriminate].
    intros [= <- <-]. cbn [sleeps length seq map].
    rewrite (IH _ _ _ Hrec) at 1. f_equal.
    + unfold delayFor. now rewrite (route_generate_no_guidance _ _ _ Hg).
    + now rewrite Nat.add_1_r.
  - destruct (truthy_opt image_ && truthy_opt text_ && (1 <=? rc)%nat);
      [|intros [= <- <-]; reflexivity].
    destruct (generate JSON_parse provider (rc + 1) _);
      intros [= <- <-]; reflexivity.
Qed.

End RouteRuns.

(** Whatever the provider does, a request that passes validation on a
    server that has a key makes the route invoke the provider at most four
    times with the request's parts, with exactly one wait between two of
    these invocations, and then at most once with the text alone; that
    fifth kind of invocation only happens for a request with both a text
    and an image, after at least one retry. *)
Theorem route_run_shape (JSON_parse : Parser) (provider : Provider)
    (env : AnalyzeRoute.Env) (request : AnalyzeRoute.Body)
    (tr : Trace) (response : AnalyzeRoute.HttpResponse) :
  let text_ := AnalyzeRoute.text request in
  let image_ := AnalyzeRoute.image request in
  let parts := AnalyzeRoute.buildParts text_ image_ (truthy_opt image_) in
  hasInput request = true ->
  truthy_opt (AnalyzeRoute.GEMINI_API_KEY env) = true ->
  AnalyzeRoute.POST JSON_parse provider env request = Some (tr, response) ->
  exists delays fallback,
    tr = retried parts delays ++ Invoke parts :: fallback /\
    (length delays <= 3)%nat /\
    sleeps tr = delays /\
    (fallback = [] /\ invocations tr = S (length delays) \/
     fallback = [Invoke (AnalyzeRoute.buildParts text_ image_ false)] /\
     hasBoth request = true /\ (1 <= length delays)%nat /\
     invocations tr = S (S (length delays))).
Proof.
  intros text_ image_ parts Hin Hkey. rewrite (POST_valid _ _ _ _ Hin Hkey).
  fold text_ image_.
  destruct (AnalyzeRoute.attemptGeneration JSON_parse provider text_ image_
              AnalyzeRoute.attemptFuel 0) as [[tr' r']|] eqn:Hrun;
    [|discriminate].
  intro Hpost. assert (tr' = tr) by (destruct r'; now injection Hpost). subst tr'.
  destruct (route_attempts_shape _ _ _ _ _ _ _ _ Hrun)
    as (delays & fb & Htr & Hlen & Hfb).
  fold parts in Htr. exists delays, fb. split; [exact Htr|].
  split; [lia|]. rewrite Htr, sleeps_retried, invocations_retried.
  destruct Hfb as [->|(-> & Hb & Hn)].
  - cbn. split; [apply app_nil_r|]. left. split; [reflexivity|lia].
  - cbn. split; [apply app_nil_r|]. right. repeat split; auto; lia.
Qed.

Lemma route_run_shape_witness :
  exists delays fallback,
    [Invoke Samples.imageParts; Sleep 2000; Invoke Samples.imageParts;
     Invoke [TextPart Samples.adText]]
    = retried Samples.imageParts delays ++ Invoke Samples.imageParts :: fallback /\
    (length delays <= 3)%nat /\
    sleeps [Invoke Samples.imageParts; Sleep 2000; Invoke Samples.imageParts;
            Invoke [TextPart Samples.adText]] = delays /\
    (fallback = [] /\
     invocations [Invoke Samples.imageParts; Sleep 2000;
                  Invoke Samples.imageParts;
                  Invoke [TextPart Samples.adText]] = S (length delays) \/
     fallback = [Invoke [TextPart Samples.adText]] /\
     hasBoth Samples.textAndImage = true /\ (1 <= length delays)%nat /\
     invocations [Invoke Samples.imageParts; Sleep 2000;
                  Invoke Samples.imageParts;
                  Invoke [TextPart Samples.adText]] = S (S (length delays))).
Proof.
  exact (route_run_shape JsonText.JSON_parse Samples.imageRefused
           Samples.prodEnv Samples.textAndImage _ _ eq_refl eq_refl eq_refl).
Defined.

(** When the provider rejects the first k invocations (k <= 3) with errors
    the route retries and then answers with a text that parses, the route
    answers 200 with the parsed value as it is (no warning is added) after
    exactly k + 1 invocations, all with the request's parts. *)
Theorem route_recovers (JSON_parse : Parser) (provider : Provider)
    (env : AnalyzeRoute.Env) (request : AnalyzeRoute.Body)
    (k : nat) (reply : option string) (v : Json) :
  let text_ := AnalyzeRoute.text request in
  let image_ := AnalyzeRoute.image request in
  let parts := AnalyzeRoute.buildParts text_ image_ (truthy_opt image_) in
  hasInput request = true ->
  truthy_opt (AnalyzeRoute.GEMINI_API_KEY env) = true ->
  (k <= 3)%nat ->
  (forall n, (n < k)%nat ->
     exists e, provider n parts = Rejects e /\ AnalyzeRoute.isRetryable e = true) ->
  provider k parts = Responds reply ->
  JSON_parse (match reply with Some s => s | None => "undefined" end) = Parsed v ->
  exists delays,
    AnalyzeRoute.POST JSON_parse provider env request
    = Some (retried parts delays ++ [Invoke parts],
            AnalyzeRoute.mkResponse 200 (AnalyzeRoute.ResultJson v)) /\
    length delays = k.
Proof.
  intros text_ image_ parts Hin Hkey Hk Hrej Hrep Hp.
  rewrite (POST_valid _ _ _ _ Hin Hkey). fold text_ image_.
  destruct (route_attempts_recover JSON_parse provider text_ image_ k
              AnalyzeRoute.attemptFuel 0 reply v) as (delays & Hrun & Hlen);
    auto; try (unfold AnalyzeRoute.attemptFuel; lia).
  - intros n Hn. apply Hrej. lia.
  - exists delays. fold parts in Hrun. now rewrite Hrun.
Qed.

Lemma route_recovers_witness :
  exists delays,
    AnalyzeRoute.POST JsonText.JSON_parse
      (Samples.failingThen
         [Samples.internalError; Samples.quotaError; Samples.unavailableError]
         (Some "{}"))
      Samples.prodEnv Samples.textAndImage
    = Some (retried Samples.imageParts delays ++ [Invoke Samples.imageParts],
            AnalyzeRoute.mkResponse 200 (AnalyzeRoute.ResultJson (JObj []))) /\
    length delays = 3%nat.
Proof.
  apply (route_recovers JsonText.JSON_parse
           (Samples.failingThen
              [Samples.internalError; Samples.quotaError; Samples.unavailableError]
              (Some "{}"))
           Samples.prodEnv Samples.textAndImage 3 (Some "{}") (JObj []));
    try reflexivity.
  intros n Hn. destruct n as [|[|[|n]]].
  - exists Samples.internalError. split; reflexivity.
  - exists Samples.quotaError. split; reflexivity.
  - exists Samples.unavailableError. split; reflexivity.
  - lia.
Defined.



(** When no error of the provider carries a usable retry delay, the waits
    of the route are the first values of 2s, 4s, 8s, in that order, so a
    request waits 14 seconds at most in all. *)
Theorem route_waits_without_guidance (JSON_parse : Parser) (provider : Provider)
    (env : AnalyzeRoute.Env) (request : AnalyzeRoute.Body)
    (tr : Trace) (response : AnalyzeRoute.HttpResponse) :
  (forall n ps e, provider n ps = Rejects e -> requestedDelay e = None) ->
  AnalyzeRoute.POST JSON_parse provider env request = Some (tr, response) ->
  sleeps tr = firstn (length (sleeps tr)) [2000; 4000; 8000]%Z /\
  (fold_right Z.add 0 (sleeps tr) <= 14000)%Z.
Proof.
  intros Hng. unfold AnalyzeRoute.POST.
  destruct (AnalyzeRoute.AnalyzeSchema request) as [data|issues];
    [|intros [= <- <-]; split; [reflexivity|cbn; lia]].
  destruct (negb _); [intros [= <- <-]; split; [reflexivity|cbn; lia]|].
  destruct (AnalyzeRoute.attemptGeneration JSON_parse provider
              (AnalyzeRoute.text data) (AnalyzeRoute.image data)
              AnalyzeRoute.attemptFuel 0) as [[tr' r']|] eqn:Hrun;
    [|discriminate].
  intro Hpost. assert (tr' = tr) by (destruct r'; now injection Hpost). subst tr'.
  pose proof (route_sleeps_schedule _ _ _ _ Hng _ _ _ _ Hrun) as Hsched.
  destruct (route_attempts_shape _ _ _ _ _ _ _ _ Hrun)
    as (delays & fb & Htr & Hlen & Hfb).
  assert (Hl : (length (sleeps tr) <= 3)%nat).
  { rewrite Htr, sleeps_retried, length_app.
    destruct Hfb as [->|(-> & _)]; cbn; lia. }
  rewrite Hsched.
  destruct (length (sleeps tr)) as [|[|[|[|n]]]]; [| | | |lia];
    rewrite length_map, length_seq; cbn; (split; [reflexivity|lia]).
Qed.

Lemma route_waits_without_guidance_witness :
  [2000; 4000; 8000]%Z = firstn 3 [2000; 4000; 8000]%Z /\
  (fold_right Z.add 0 [2000; 4000; 8000] <= 14000)%Z.
Proof.
  apply (route_waits_without_guidance JsonText.JSON_parse
           (Samples.always Samples.quotaError)
           Samples.prodEnv Samples.textOnly
           [Invoke [TextPart Samples.adText]; Sleep 2000;
            Invoke [TextPart Samples.adText]; Sleep 4000;
            Invoke [TextPart Samples.adText]; Sleep 8000;
            Invoke [TextPart Samples.adText]]
           (AnalyzeRoute.errorResponse Samples.prodEnv Samples.quotaError)).
  - intros n ps e [= <-]. reflexivity.
  - reflexivity.
Defined.

(** Outside development the route gives away nothing of the error it
    caught: an error body carries one of the route's four fixed messages and
    no details other than the validation issues, and a result is always
    answered with status 200. *)
Theorem route_production_response (JSON_parse : Parser) (provider : Provider)
    (env : AnalyzeRoute.Env) (request : AnalyzeRoute.Body)
    (tr : Trace) (response : AnalyzeRoute.HttpResponse) :
  AnalyzeRoute.NODE_ENV env <> Some "development" ->
  AnalyzeRoute.POST JSON_parse provider env request = Some (tr, response) ->
  match AnalyzeRoute.body response with
  | AnalyzeRoute.ResultJson _ => AnalyzeRoute.http_status response = 200%Z
  | AnalyzeRoute.ErrorJson msg details =>
      In msg ["Input inválido"; AnalyzeRoute.missingKeyMessage;
              AnalyzeRoute.quotaMessage; AnalyzeRoute.internalMessage] /\
      (details = AnalyzeRoute.NoDetails \/
       details = AnalyzeRoute.Issues [AnalyzeRoute.emptyInputMessage])
  end.
Proof.
  intros Hprod. unfold AnalyzeRoute.POST, AnalyzeRoute.AnalyzeSchema.
  destruct (truthy_opt (AnalyzeRoute.text request) || _).
  - destruct (negb _).
    + intros [= <- <-]. cbn. split; [now right; left|now left].
    + destruct (AnalyzeRoute.attemptGeneration _ _ _ _ _ _) as [[tr' [v|e]]|];
        [| |discriminate]; intros [= <- <-]; [reflexivity|].
      unfold AnalyzeRoute.errorResponse. cbn [AnalyzeRoute.body].
      split.
      * destruct (AnalyzeRoute.isQuotaError e); cbn; tauto.
      * left. destruct (AnalyzeRoute.NODE_ENV env) as [v|]; [|reflexivity].
        destruct (String.eqb_spec v "development"); [|reflexivity].
        subst v. now contradiction Hprod.
  - intros [= <- <-]. cbn. split; [now left|now right].
Qed.

Lemma route_production_response_witness :
  In AnalyzeRoute.internalMessage
     ["Input inválido"; AnalyzeRoute.missingKeyMessage;
      AnalyzeRoute.quotaMessage; AnalyzeRoute.internalMessage] /\
  (AnalyzeRoute.NoDetails = AnalyzeRoute.NoDetails \/
   AnalyzeRoute.NoDetails = AnalyzeRoute.Issues [AnalyzeRoute.emptyInputMessage]).
Proof.
  apply (route_production_response JsonText.JSON_parse
           (Samples.failingThen [Samples.badRequestError] (Some "{}"))
           Samples.prodEnv Samples.textAndImage
           [Invoke Samples.imageParts]
           (AnalyzeRoute.errorResponse Samples.prodEnv Samples.badRequestError)).
  - discriminate.
  - reflexivity.
Defined.

(** ** The parts sent to the provider *)

Lemma split_comma_comma_free (s : string) :
  comma_free s = true -> split_comma s = [s].
Proof.
  induction s as [|c s IH]; [reflexivity|]. cbn [comma_free split_comma].
  intro H. apply andb_true_iff in H as [Hc Hs].
  apply negb_true_iff in Hc. now rewrite Hc, (IH Hs).
Qed.

Lemma split_comma_prefix (p rest : string) :
  comma_free p = true ->
  split_comma (p ++ String "," rest)%string = p :: split_comma rest.
Proof.
  induction p as [|c p IH]; intro H.
  - reflexivity.
  - cbn [comma_free] in H. apply andb_true_iff in H as [Hc Hp].
    apply negb_true_iff in Hc. cbn [append split_comma].
    now rewrite Hc, (IH Hp).
Qed.

Lemma split_comma_segments (s : string) :
  Forall (fun seg => comma_free seg = true) (split_comma s).
Proof.
  induction s as [|c s IH]; [repeat constructor|]. cbn [split_comma].
  destruct (Ascii.eqb c ",") eqn:Hc.
  - constructor; [reflexivity|exact IH].
  - destruct (split_comma s) as [|seg segs].
    + repeat constructor. cbn. now rewrite Hc.
    + inversion IH as [|? ? Hseg Hsegs]; subst.
      constructor; [|exact Hsegs]. cbn. now rewrite Hc, Hseg.
Qed.

(** [base64Data], the payload both handlers send for an image: a string
    without a comma is sent as it is; from a data URL "<prefix>,<payload>"
    the payload alone is sent; and what is sent is itself left unchanged by
    the same extraction. *)
Theorem base64Data_payload (image prefix payload : string) :
  (comma_free image = true -> base64Data image = image) /\
  (comma_free prefix = true -> comma_free payload = true ->
   truthy payload = true ->
   base64Data (prefix ++ String "," payload)%string = payload) /\
  base64Data (base64Data image) = base64Data image.
Proof.
  assert (Hfree : forall s, comma_free s = true -> base64Data s = s).
  { intros s Hs. unfold base64Data. now rewrite (split_comma_comma_free s Hs). }
  split; [apply Hfree|]. split.
  - intros Hp Hq Ht. unfold base64Data.
    rewrite (split_comma_prefix prefix payload Hp),
      (split_comma_comma_free payload Hq).
    cbn. now rewrite Ht.
  - assert (Hcases : base64Data image = image \/
                     comma_free (base64Data image) = true).
    { unfold base64Data. pose proof (split_comma_segments image) as Hall.
      destruct (split_comma image) as [|s0 [|s1 rest]]; cbn; auto.
      destruct (truthy s1); auto. right.
      inversion Hall as [|? ? _ Hrest]; subst. now inversion Hrest. }
    destruct Hcases as [H|H]; [now rewrite !H|now apply Hfree].
Qed.

Lemma base64Data_payload_witness :
  base64Data "iVBORw0KGgo=" = "iVBORw0KGgo=" /\
  base64Data "data:image/png;base64,iVBORw0KGgo=" = "iVBORw0KGgo=".
Proof.
  destruct (base64Data_payload "iVBORw0KGgo=" "data:image/png;base64"
              "iVBORw0KGgo=") as (Hraw & Hurl & _).
  split; [apply Hraw; reflexivity|apply Hurl; reflexivity].
Defined.

(** The two handlers assemble the same parts for a non-empty text, with or
    without an image; for an empty text the SPA service still sends an
    empty text part, which the route leaves out. *)
Theorem spa_route_same_parts (t : string) (img : option string) :
  GeminiService.contentsOf t img =
  (if truthy t then [] else [TextPart t])
  ++ AnalyzeRoute.buildParts (Some t) img (truthy_opt img).
Proof.
  unfold GeminiService.contentsOf, AnalyzeRoute.buildParts.
  destruct (truthy t); destruct img as [s|]; cbn [truthy_opt app];
    try reflexivity; destruct (truthy s); reflexivity.
Qed.

(** The validation of the route rejects exactly the requests for which no
    part would be sent; the parts of any request are at most its non-empty
    text followed by at most its image, declared as "image/png" and
    reduced to its payload. *)
Theorem route_parts_of_request (request : AnalyzeRoute.Body) :
  let parts := AnalyzeRoute.buildParts (AnalyzeRoute.text request)
                 (AnalyzeRoute.image request)
                 (truthy_opt (AnalyzeRoute.image request)) in
  (AnalyzeRoute.AnalyzeSchema request
   = AnalyzeRoute.Failure [AnalyzeRoute.emptyInputMessage] <-> parts = []) /\
  exists textPart imagePart,
    parts = textPart ++ imagePart /\
    (textPart = [] /\ truthy_opt (AnalyzeRoute.text request) = false \/
     exists t, textPart = [TextPart t] /\ AnalyzeRoute.text request = Some t /\
               truthy t = true) /\
    (imagePart = [] /\ truthy_opt (AnalyzeRoute.image request) = false \/
     exists img, imagePart = [InlineData "image/png" (base64Data img)] /\
                 AnalyzeRoute.image request = Some img /\ truthy img = true).
Proof.
  destruct request as [t i]. cbn.
  unfold AnalyzeRoute.AnalyzeSchema, AnalyzeRoute.buildParts. cbn.
  set (tp := match t with
             | Some t0 => if truthy t0 then [TextPart t0] else []
             | None => []
             end).
  set (ip := match i with
             | Some img =>
                 if truthy img && truthy_opt i
                 then [InlineData "image/png" (base64Data img)] else []
             | None => []
             end).
  assert (Htp : tp = [] /\ truthy_opt t = false \/
                exists t0, tp = [TextPart t0] /\ t = Some t0 /\ truthy t0 = true).
  { subst tp. destruct t as [t0|]; cbn; [|now left].
    destruct (truthy t0) eqn:Ht; [right; eauto|now left]. }
  assert (Hip : ip = [] /\ truthy_opt i = false \/
                exists img, ip = [InlineData "image/png" (base64Data img)] /\
                            i = Some img /\ truthy img = true).
  { subst ip. destruct i as [img|]; cbn; [|now left].
    destruct (truthy img) eqn:Hi; cbn; [right; eauto|now left]. }
  clearbody tp ip. split; [|exists tp, ip; auto].
  destruct Htp as [[Htp Ht]|(t0 & Htp & Ht & Ht0)],
           Hip as [[Hip Hi]|(img & Hip & Hi & Hi0)]; subst; cbn;
    rewrite ?Ht, ?Ht0, ?Hi, ?Hi0, ?orb_true_r; cbn;
    split; intro H; try discriminate; reflexivity.
Qed.

(** ** The client side *)

Lemma firstn_app_firstn {A : Type} (n : nat) (l m : list A) :
  firstn n (l ++ firstn n m) = firstn n (l ++ m).
Proof.
  rewrite !firstn_app, firstn_firstn. f_equal. f_equal. lia.
Qed.

(** The history holds the most recent results, the newest first, and never
    more than 15 once a result was added: after a series of additions it is
    the reversed series followed by the old history, cut at 15 entries. *)
Theorem addToHistory_keeps_latest {A : Type} (r : A) (rs initial : list A) :
  let history :=
    fold_left (fun h x => AnalysisContext.addToHistory x h) (r :: rs) initial in
  history = firstn 15 (rev (r :: rs) ++ initial) /\
  (length history <= 15)%nat /\
  hd_error history = hd_error (rev (r :: rs)).
Proof.
  cbn zeta.
  assert (Hfold : forall (xs : list A) x init,
            fold_left (fun h y => AnalysisContext.addToHistory y h) (x :: xs) init
            = firstn 15 (rev (x :: xs) ++ init)).
  { induction xs as [|x' xs IH]; intros x init; [reflexivity|].
    change (fold_left (fun h y => AnalysisContext.addToHistory y h)
              (x :: x' :: xs) init)
      with (fold_left (fun h y => AnalysisContext.addToHistory y h)
              (x' :: xs) (AnalysisContext.addToHistory x init)).
    rewrite IH. unfold AnalysisContext.addToHistory.
    rewrite firstn_app_firstn.
    change (rev (x :: x' :: xs)) with (rev (x' :: xs) ++ [x]).
    now rewrite <- app_assoc. }
  rewrite Hfold. split; [reflexivity|]. split; [apply firstn_le_length|].
  destruct (rev (r :: rs)) as [|y ys] eqn:Hrev; [|reflexivity].
  apply (f_equal (@length A)) in Hrev. rewrite length_rev in Hrev. discriminate.
Qed.

Lemma textToAnalyze_truthy (st : HomePage.State) (t : string) :
  HomePage.textToAnalyze st = Some t -> truthy t = true.
Proof.
  unfold HomePage.textToAnalyze.
  destruct (truthy (HomePage.inputText st)) eqn:Hi; [now intros [= <-]|].
  destruct (HomePage.fileName st) as [f|]; [|discriminate].
  destruct (truthy f); [|discriminate]. now intros [= <-].
Qed.

(** [handleAnalyze] posts a request exactly when it is not analyzing and a
    text, an image or a file name is there; its second guard never fires;
    and every request it posts passes the validation of the route, so the
    route never answers it with the "Input inválido" issues. *)
Theorem handleAnalyze_posts_valid_request (JSON_parse : Parser)
    (provider : Provider) (env : AnalyzeRoute.Env) (st : HomePage.State) :
  HomePage.handleAnalyze st <> HomePage.Skipped /\
  (HomePage.blocked st = true <-> HomePage.handleAnalyze st = HomePage.Ignored) /\
  forall request,
    HomePage.handleAnalyze st = HomePage.Posted request ->
    AnalyzeRoute.AnalyzeSchema request = AnalyzeRoute.Success request /\
    forall tr response issues,
      AnalyzeRoute.POST JSON_parse provider env request = Some (tr, response) ->
      AnalyzeRoute.body response
      <> AnalyzeRoute.ErrorJson "Input inválido" (AnalyzeRoute.Issues issues).
Proof.
  assert (Hdead : HomePage.blocked st = false -> HomePage.nothingToSend st = false).
  { destruct st as [an it si fn].
    unfold HomePage.blocked, HomePage.nothingToSend, HomePage.textToAnalyze.
    cbn. destruct an; [discriminate|].
    destruct (truthy it) eqn:Hit; cbn; rewrite ?Hit; cbn; [reflexivity|].
    destruct si as [s|], fn as [f|]; cbn;
      try destruct (truthy s); try destruct (truthy f); cbn;
      auto; discriminate. }
  unfold HomePage.handleAnalyze.
  destruct (HomePage.blocked st) eqn:Hb.
  - split; [discriminate|]. split; [tauto|]. discriminate.
  - rewrite (Hdead eq_refl). split; [discriminate|].
    split; [split; discriminate|].
    intros request [= <-].
    assert (Hvalid : AnalyzeRoute.AnalyzeSchema
                       (HomePage.analyzeWithAPI_body
                          (or_else (HomePage.textToAnalyze st) "")
                          (HomePage.selectedImage st))
                     = AnalyzeRoute.Success
                         (HomePage.analyzeWithAPI_body
                            (or_else (HomePage.textToAnalyze st) "")
                            (HomePage.selectedImage st))).
    { unfold AnalyzeRoute.AnalyzeSchema, HomePage.analyzeWithAPI_body.
      cbn [AnalyzeRoute.text AnalyzeRoute.image truthy_opt].
      pose proof (Hdead eq_refl) as Hn. unfold HomePage.nothingToSend in Hn.
      destruct (HomePage.textToAnalyze st) as [t|] eqn:Ht.
      - apply textToAnalyze_truthy in Ht. cbn [or_else].
        rewrite Ht. cbn iota. now rewrite Ht.
      - cbn in Hn. apply negb_false_iff in Hn. rewrite Hn.
        now rewrite orb_true_r. }
    split; [exact Hvalid|].
    intros tr response issues. unfold AnalyzeRoute.POST. rewrite Hvalid.
    destruct (negb _); [intros [= <- <-]; discriminate|].
    destruct (AnalyzeRoute.attemptGeneration _ _ _ _ _ _) as [[tr' [v|e]]|];
      [| |discriminate]; intros [= <- <-]; cbn; [discriminate|].
    destruct (match AnalyzeRoute.NODE_ENV env with
              | Some v => String.eqb v "development"
              | None => false
              end); discriminate.
Qed.

Lemma handleAnalyze_posts_valid_request_witness :
  HomePage.handleAnalyze (HomePage.mkState false "" None (Some "brief.pdf"))
  = HomePage.Posted (AnalyzeRoute.mkBody (Some "Arquivo: brief.pdf") None) /\
  AnalyzeRoute.AnalyzeSchema (AnalyzeRoute.mkBody (Some "Arquivo: brief.pdf") None)
  = AnalyzeRoute.Success (AnalyzeRoute.mkBody (Some "Arquivo: brief.pdf") None).
Proof.
  split; [reflexivity|].
  destruct (handleAnalyze_posts_valid_request JsonText.JSON_parse
              (Samples.always Samples.quotaError) Samples.prodEnv
              (HomePage.mkState false "" None (Some "brief.pdf")))
    as (_ & _ & Hposted).
  apply (Hposted (AnalyzeRoute.mkBody (Some "Arquivo: brief.pdf") None) eq_refl).
Defined.

(** The diagnosis printed for an error thrown by [analyzeCreative]: a
    missing key is reported as the key configuration error, a failure whose
    last attempt had status 429 as the quota error, and a response that was
    not JSON as neither. *)
Theorem diagnose_analyzeCreative (JSON_parse : Parser) (provider : Provider)
    (apiKey : option string) (input : string) (base64Image : option string)
    (tr : Trace) (err : JsError) :
  let contents := GeminiService.contentsOf input base64Image in
  GeminiService.analyzeCreative JSON_parse provider apiKey input base64Image
  = Some (tr, Thrown err) ->
  (truthy_opt apiKey = false ->
   ServiceCheck.diagnose (message_text err) = ServiceCheck.ApiKeyError) /\
  (truthy_opt apiKey = true ->
   (forall e, GeminiService.generate JSON_parse provider (invocations tr - 1)
                contents = Thrown e -> status e = Some 429%Z) ->
   ServiceCheck.diagnose (message_text err) = ServiceCheck.QuotaError) /\
  (truthy_opt apiKey = true ->
   GeminiService.generate JSON_parse provider (invocations tr - 1) contents
   = Thrown (Error GeminiService.parseErrorMessage) ->
   ServiceCheck.diagnose (message_text err) = ServiceCheck.OtherError).
Proof.
  intros contents Hrun. split; [|split].
  - intro Hk. revert Hrun. unfold GeminiService.analyzeCreative. rewrite Hk.
    now intros [= <- <-].
  - intros Hk Hlast.
    destruct (spa_thrown_error _ _ _ _ _ _ _ Hk Hrun) as [(e & Hg & ->) _].
    apply Hlast, status_is_true in Hg. now rewrite Hg.
  - intros Hk Hlast.
    destruct (spa_run_shape _ _ _ _ _ _ _ Hk Hrun)
      as (delays & _ & Hlen & Hinv & _).
    destruct (spa_thrown_error _ _ _ _ _ _ _ Hk Hrun) as [(e & Hg & ->) _].
    fold contents in Hg. rewrite Hlast in Hg. injection Hg as <-.
    rewrite Hinv.
    destruct delays as [|d0 [|d1 [|d2 [|d3 ds]]]];
      [reflexivity|reflexivity|reflexivity|reflexivity|simpl in Hlen; lia].
Qed.

Lemma diagnose_analyzeCreative_witness :
  ServiceCheck.diagnose GeminiService.overloadedMessage = ServiceCheck.QuotaError.
Proof.
  destruct (diagnose_analyzeCreative JsonText.JSON_parse
              (Samples.always Samples.quotaError)
              Samples.key Samples.adText None
              [Invoke [TextPart Samples.adText]; Sleep 2000;
               Invoke [TextPart Samples.adText]; Sleep 5000;
               Invoke [TextPart Samples.adText]; Sleep 15000;
               Invoke [TextPart Samples.adText]]
              (Error GeminiService.overloadedMessage) eq_refl)
    as (_ & Hquota & _).
  apply Hquota; [reflexivity|]. now intros e [= <-].
Defined.

(** ** The retry delay read from the provider's error *)

Lemma parseInt_from_uint (d : Decimal.uint) :
  forall acc : nat,
  parseInt_from (Z.of_nat acc) (NilEmpty.string_of_uint d)
  = Z.of_nat (Nat.of_uint_acc d acc).
Proof.
  induction d; intro acc;
    cbn [NilEmpty.string_of_uint parseInt_from Nat.of_uint_acc];
    [reflexivity|..]; rewrite Nat.tail_mul_spec, <- IHd; f_equal;
    match goal with
    | |- context [nat_of_ascii ?c] =>
        let v := eval vm_compute in (nat_of_ascii c) in
        change (nat_of_ascii c) with v
    end; lia.
Qed.

Lemma parseInt_show_nat (n : nat) : parseInt (show_nat n) = Z.of_nat n.
Proof.
  unfold parseInt, show_nat. change 0%Z with (Z.of_nat 0).
  rewrite (parseInt_from_uint (Nat.to_uint n) 0).
  fold (Nat.of_uint (Nat.to_uint n)). now rewrite DecimalNat.Unsigned.of_to.
Qed.

Lemma all_digits_string_of_uint (d : Decimal.uint) :
  all_digits (NilEmpty.string_of_uint d) = true.
Proof. induction d; cbn; auto. Qed.

Lemma truthy_show_nat (n : nat) : truthy (show_nat n) = true.
Proof.
  unfold show_nat. destruct (Nat.to_uint n) eqn:E; try reflexivity.
  pose proof (DecimalNat.Unsigned.of_to n) as H. rewrite E in H.
  cbn in H. subst n. discriminate.
Qed.

Lemma span_digits_eq (s : string) :
  s = (fst (span_digits s) ++ snd (span_digits s))%string.
Proof.
  induction s as [|c s IH]; [reflexivity|]. cbn [span_digits].
  destruct (is_digit c); [|reflexivity].
  destruct (span_digits s) as [ds tl]. cbn in *. now rewrite <- IH.
Qed.

(** A delay written "<n>s" or "<n>ms" by the provider, n a natural number
    in decimal whose duration the timer waits for as given (at most
    2^31 - 1 ms), is read back as n * 1000 or n milliseconds; it is the wait
    of the route, and of the SPA service unless it is zero, where the SPA
    service waits its schedule value instead. *)
Theorem retryDelay_round_trip (e : JsError) (n k : nat) :
  (carriesGuidance e (show_nat n ++ "s")%string ->
   timerRange (Z.of_nat n * 1000) ->
   requestedDelay e = Some (Z.of_nat n * 1000)%Z /\
   AnalyzeRoute.delayFor e k = (Z.of_nat n * 1000)%Z /\
   GeminiService.delayFor e k =
   if (n =? 0)%nat then GeminiService.backoffAt k else (Z.of_nat n * 1000)%Z) /\
  (carriesGuidance e (show_nat n ++ "ms")%string ->
   timerRange (Z.of_nat n) ->
   requestedDelay e = Some (Z.of_nat n) /\
   AnalyzeRoute.delayFor e k = Z.of_nat n /\
   GeminiService.delayFor e k =
   if (n =? 0)%nat then GeminiService.backoffAt k else Z.of_nat n).
Proof.
  pose proof (all_digits_string_of_uint (Nat.to_uint n)) as Hd.
  fold (show_nat n) in Hd. pose proof (truthy_show_nat n) as Ht.
  split; intros Hg _.
  - pose proof (requestedDelay_seconds e _ Hd Ht Hg) as Hreq.
    rewrite parseInt_show_nat in Hreq.
    unfold AnalyzeRoute.delayFor, GeminiService.delayFor. rewrite Hreq.
    split; [reflexivity|]. split; [reflexivity|].
    destruct n as [|n]; [reflexivity|].
    replace ((Z.of_nat (S n) * 1000 =? 0)%Z) with false; [reflexivity|].
    symmetry. apply Z.eqb_neq. lia.
  - pose proof (requestedDelay_millis e _ Hd Ht Hg) as Hreq.
    rewrite parseInt_show_nat in Hreq.
    unfold AnalyzeRoute.delayFor, GeminiService.delayFor. rewrite Hreq.
    split; [reflexivity|]. split; [reflexivity|].
    destruct n as [|n]; [reflexivity|].
    replace ((Z.of_nat (S n) =? 0)%Z) with false; [reflexivity|].
    symmetry. apply Z.eqb_neq. lia.
Qed.

Lemma retryDelay_round_trip_witness :
  timerRange 33000 /\
  requestedDelay (Samples.guidedError "33s") = Some 33000%Z /\
  AnalyzeRoute.delayFor (Samples.guidedError "33s") 2 = 33000%Z /\
  GeminiService.delayFor (Samples.guidedError "33s") 2 = 33000%Z.
Proof.
  assert (Hrange : timerRange 33000) by (split; discriminate).
  split; [exact Hrange|].
  apply (retryDelay_round_trip (Samples.guidedError "33s") 33 2).
  - apply (guidedError_carries "33s"). reflexivity.
  - exact Hrange.
Defined.

(** A delay is read from an error only when the first RetryInfo entry of
    its details holds one or more decimal digits followed by "s" or by
    "ms" and nothing else; any other text there is ignored. *)
Theorem requestedDelay_accepted_forms (e : JsError) (d : Z) :
  requestedDelay e = Some d ->
  exists rd ds,
    carriesGuidance e rd /\
    all_digits ds = true /\ truthy ds = true /\
    (rd = (ds ++ "s")%string /\ d = (parseInt ds * 1000)%Z \/
     rd = (ds ++ "ms")%string /\ d = parseInt ds).
Proof.
  unfold requestedDelay, carriesGuidance.
  destruct (details e) as [l|]; [|discriminate].
  destruct (find isRetryInfo l) as [ri|] eqn:Hf; [|discriminate].
  destruct (retryDelay ri) as [rd|] eqn:Hr; [|discriminate].
  unfold matchRetryDelay.
  pose proof (span_digits_all_digits rd) as Hall.
  pose proof (span_digits_eq rd) as Heq.
  destruct (span_digits rd) as [ds u]. cbn [fst snd] in *.
  destruct (truthy ds) eqn:Ht; [|discriminate]. cbn [andb].
  destruct (String.eqb_spec u "s") as [->|Hs]; cbn [orb].
  - cbn. intros [= <-]. exists rd, ds. repeat split; eauto.
  - destruct (String.eqb_spec u "ms") as [->|Hms]; [|discriminate].
    cbn. intros [= <-]. exists rd, ds. repeat split; eauto.
Qed.

Lemma requestedDelay_accepted_forms_witness :
  exists rd ds,
    carriesGuidance (Samples.guidedError "500ms") rd /\
    all_digits ds = true /\ truthy ds = true /\
    (rd = (ds ++ "s")%string /\ 500%Z = (parseInt ds * 1000)%Z \/
     rd = (ds ++ "ms")%string /\ 500%Z = parseInt ds).
Proof.
  exact (requestedDelay_accepted_forms (Samples.guidedError "500ms") 500 eq_refl).
Defined.

(** ** The result of the text-only fallback *)

Lemma getField_setField_other (key k : string) (v : Json)
    (fields : list (string * Json)) :
  key <> k -> getField key (setField k v fields) = getField key fields.
Proof.
  intro Hne. induction fields as [|[k' w] rest IH]; cbn.
  - destruct (String.eqb_spec k key); [congruence|reflexivity].
  - destruct (String.eqb_spec k' k) as [->|Hk]; cbn.
    + destruct (String.eqb_spec k key); [congruence|reflexivity].
    + destruct (String.eqb_spec k' key); [reflexivity|exact IH].
Qed.

(** The result of a successful fallback keeps every field of the object the
    provider sent and sets [warning] to the fixed message, also when the
    provider sent a warning of its own; when the provider sent null, a
    boolean or a number, the result has the warning as its only field. *)
Theorem fallback_result_fields (parsed : Json) (fields : list (string * Json))
    (key : string) :
  (exists result,
     AnalyzeRoute.withWarning parsed = JObj result /\
     getField "warning" result = Some (JStr AnalyzeRoute.warningMessage) /\
     (parsed = JObj fields -> key <> "warning" ->
      getField key result = getField key fields)) /\
  (spread parsed = [] ->
   AnalyzeRoute.withWarning parsed
   = JObj [("warning", JStr AnalyzeRoute.warningMessage)]).
Proof.
  split.
  - eexists. split; [reflexivity|]. split; [apply getField_setField|].
    intros -> Hne. now apply getField_setField_other.
  - unfold AnalyzeRoute.withWarning. now intros ->.
Qed.

Lemma fallback_result_fields_witness :
  (exists result,
     AnalyzeRoute.withWarning (JObj [("warning", JStr "own"); ("overall_score", JNum 70)])
     = JObj result /\
     getField "warning" result = Some (JStr AnalyzeRoute.warningMessage) /\
     getField "overall_score" result = Some (JNum 70)) /\
  AnalyzeRoute.withWarning JNull
  = JObj [("warning", JStr AnalyzeRoute.warningMessage)].
Proof.
  destruct (fallback_result_fields
              (JObj [("warning", JStr "own"); ("overall_score", JNum 70)])
              [("warning", JStr "own"); ("overall_score", JNum 70)]
              "overall_score") as [(result & Hres & Hw & Hkeep) _].
  destruct (fallback_result_fields JNull [] "overall_score") as [_ Hnull].
  split; [|apply Hnull; reflexivity].
  exists result. split; [exact Hres|]. split; [exact Hw|].
  rewrite Hkeep; [reflexivity|reflexivity|discriminate].
Defined.
